(** * Field configuration of the admin panel: [helper/fieldsHelper.js]

    A shallow embedding of the two functions of [helper/fieldsHelper.js]
    that carry the logic of the hook, [_normalizeFieldConfig] and
    [getFields] (with its iteration function [_prepareField]), and the
    properties of the field resolver proved about them.

    Conventions of the embedding.
    - JavaScript data is a tree ([data]).  Property values are never written
      through by this module, so they are kept by value.
    - The objects that a caller shares with the module, the override objects
      stored in the [fields] maps of the configuration, live in a store
      ([heap]) and are named by their address ([VRef]): [_normalizeFieldConfig]
      assigns to them, and two entries may name the same object.
    - An object as plain data at the place of a variable ([VData (DObject _)])
      is an object literal that only the running code holds, such as the
      working configuration [fldConfig].
    - A property read follows own properties only: property names are assumed
      not to collide with the members of [Object.prototype].
    - Exceptions are results ([Throw]). *)

From Stdlib Require Import String List Bool Floats.SpecFloat.
From stdpp Require Import base strings pretty gmap.
Import ListNotations.

Set Warnings "-register-all".
Open Scope string_scope.

(** ** Data *)

(** Property values.  [DOther] stands for every object that is neither an
    array nor a plain object (functions, dates, class instances). *)
Inductive data : Type :=
  | DUndefined
  | DNull
  | DBool (b : bool)
  | DNumber (x : spec_float)
  | DString (s : string)
  | DObject (ps : list (string * data))
  | DArray (vs : list data)
  | DOther (name : string).

(** The own properties of a plain object, the first binding of a name being
    the one in force. *)
Abbreviation props := (list (string * data)).

Definition loc := nat.

(** What a variable or a [fields] entry holds. *)
Inductive value : Type :=
  | VData (d : data)
  | VRef (l : loc).

(** The store of the shared plain objects; [h !!! l] is the object at the
    address [l], an address that the store does not list being an object
    without properties. *)
Abbreviation heap := (gmap loc props).

Definition undefined : value := VData DUndefined.
Definition false_ : value := VData (DBool false).

(** *** Truthiness and the lodash type tests *)

Definition number_truthy (x : spec_float) : bool :=
  match x with
  | S754_zero _ | S754_nan => false
  | _ => true
  end.

Definition truthy (d : data) : bool :=
  match d with
  | DUndefined | DNull => false
  | DBool b => b
  | DNumber x => number_truthy x
  | DString s => negb (String.eqb s "")
  | DObject _ | DArray _ | DOther _ => true
  end.

Definition value_truthy (v : value) : bool :=
  match v with
  | VData d => truthy d
  | VRef _ => true
  end.

(** [a || b] *)
Definition js_or (a b : data) : data := if truthy a then a else b.

(** [Boolean(a)] *)
Definition Boolean (a : data) : data := DBool (truthy a).

Definition isUndefined (v : value) : bool :=
  match v with VData DUndefined => true | _ => false end.

Definition isBoolean (v : value) : bool :=
  match v with VData (DBool _) => true | _ => false end.

Definition isString (v : value) : bool :=
  match v with VData (DString _) => true | _ => false end.

Definition isPlainObject (v : value) : bool :=
  match v with VData (DObject _) | VRef _ => true | _ => false end.

(** [v === false] *)
Definition is_false (v : value) : bool :=
  match v with VData (DBool false) => true | _ => false end.

(** [key === d] for a property name [key] *)
Definition strict_eq_string (key : string) (d : data) : bool :=
  match d with DString s => String.eqb key s | _ => false end.

(** *** Properties *)

(** [o[k]] on the own properties [o]: [undefined] when there is none. *)
Fixpoint get (ps : props) (k : string) : data :=
  match ps with
  | [] => DUndefined
  | (k', v) :: rest => if String.eqb k k' then v else get rest k
  end.

(** [o[k] = v] *)
Fixpoint put (ps : props) (k : string) (v : data) : props :=
  match ps with
  | [] => [(k, v)]
  | (k', v') :: rest =>
      if String.eqb k k' then (k, v) :: rest else (k', v') :: put rest k v
  end.

(** [d[k]] on data that is not known to be an object; a string has none of
    the names read here.  ([null] and [undefined] are never read from: every
    read of the module is behind an [isPlainObject] or [isString] test.) *)
Definition data_get (d : data) (k : string) : data :=
  match d with
  | DObject ps => get ps k
  | _ => DUndefined
  end.

(** ** Effects: a store and exceptions *)

Inductive outcome (A : Type) : Type :=
  | Ok (a : A)
  | Throw (msg : string).
Arguments Ok {A} a.
Arguments Throw {A} msg.

Definition M (A : Type) : Type := heap -> outcome (A * heap).

Definition ret {A} (a : A) : M A := fun h => Ok (a, h).

Definition throw {A} (msg : string) : M A := fun _ => Throw msg.

Definition bind {A B} (c : M A) (f : A -> M B) : M B :=
  fun h =>
    match c h with
    | Ok (a, h') => f a h'
    | Throw msg => Throw msg
    end.

Notation "x <- c1 ;; c2" := (bind c1 (fun x => c2))
  (at level 100, c1 at next level, right associativity).

(** [v[k]] *)
Definition prop_get (v : value) (k : string) : M data :=
  fun h =>
    match v with
    | VData d => Ok (data_get d k, h)
    | VRef l => Ok (get (h !!! l) k, h)
    end.

(** [v[k] = d] on objects that accept the assignment (for sealed and frozen
    ones see [prop_set_in] below): in place for a shared object; a literal is handed back
    updated; an array or another object takes the property, which its opaque
    model does not record; strict mode ('use strict') refuses a primitive. *)
Definition prop_set (v : value) (k : string) (d : data) : M value :=
  fun h =>
    match v with
    | VRef l => Ok (VRef l, <[l := put (h !!! l) k d]> h)
    | VData (DObject ps) => Ok (VData (DObject (put ps k d)), h)
    | VData (DArray _) | VData (DOther _) => Ok (v, h)
    | VData _ => Throw "TypeError"
    end.

(** ** lodash's [_.merge]

    [_.merge(object, source)] belongs to lodash, the global [_] of a Sails
    application, not to this repository.  It is modelled after the library's
    documentation: the own properties of [source] are merged into [object]
    recursively; a source property that is a plain object or an array is
    merged into the destination's value of the same kind, or into a new
    empty one, so that the destination never shares it with the source; any
    other source value is assigned, except [undefined], which is skipped; a
    source that is not an object leaves [object] as it is.  On records whose
    properties are primitive this is the assignment of the defined properties
    of [source]. *)

Section MergeOwn.
Variable merge_value : data -> data -> data.

(** One pass over the own properties of the source; [seen] holds the names
    already met, whose later bindings are shadowed. *)
Fixpoint merge_own (seen : list string) (sps : props) (acc : props) : props :=
  match sps with
  | [] => acc
  | (k, sv) :: rest =>
      if existsb (String.eqb k) seen then merge_own seen rest acc
      else
        merge_own (k :: seen) rest
          match sv with
          | DUndefined => acc
          | _ => put acc k (merge_value (get acc k) sv)
          end
  end.

(** The same over the indices of a source array. *)
Fixpoint merge_items (dvs svs : list data) : list data :=
  match svs with
  | [] => dvs
  | sv :: svs' =>
      match dvs with
      | [] => merge_value DUndefined sv :: merge_items [] svs'
      | dv :: dvs' => merge_value dv sv :: merge_items dvs' svs'
      end
  end.
End MergeOwn.

(** The value left at [object[key]], from the value [dst] found there and the
    source's value [src]. *)
Fixpoint merge_data (dst src : data) {struct src} : data :=
  match src with
  | DObject sps =>
      DObject (merge_own merge_data [] sps
                 match dst with DObject dps => dps | _ => [] end)
  | DArray svs =>
      DArray (merge_items merge_data
                match dst with DArray dvs => dvs | _ => [] end svs)
  | DUndefined => dst
  | _ => src
  end.

Definition merge_props (object source : props) : props :=
  merge_own merge_data [] source object.

(** The elements of an array under their indices. *)
Definition index_props (vs : list data) : props :=
  imap (fun (i : nat) v => (pretty i, v)) vs.

(** The own properties over which [_.merge] runs for a source [v]: those of a
    plain object, the indices of an array, none for any other object; [None]
    when [v] is no object. *)
Definition source_props (v : value) (h : heap) : option props :=
  match v with
  | VRef l => Some (h !!! l)
  | VData (DObject sps) => Some sps
  | VData (DArray vs) => Some (index_props vs)
  | VData (DOther _) => Some []
  | VData _ => None
  end.

(** [_.merge(object, source)] where [object] is an object literal of the
    running code, as the working configuration [fldConfig] is: the store is
    read, never written. *)
Definition lodash_merge (object : props) (source : value) : M props :=
  fun h =>
    match source_props source h with
    | Some sps => Ok (merge_props object sps, h)
    | None => Ok (object, h)
    end.

(** ** [_normalizeFieldConfig] (lines 87-123) *)

Definition no_config_or_key : string := "No `config` or `key` passed !".

Definition _normalizeFieldConfig (config : value) (key : data) : M value :=
  if isUndefined config || isUndefined (VData key) then
    throw no_config_or_key
  else if isBoolean config then
    if negb (value_truthy config) then ret false_
    else ret (VData (DObject [("key", key); ("title", key)]))
  else
    match config with
    | VData (DString s) =>
        ret (VData (DObject [("key", key); ("title", DString s)]))
    | _ =>
        if isPlainObject config then
          k <- prop_get config "key" ;;
          config <- (if negb (truthy k) then prop_set config "key" key
                     else ret config) ;;
          t <- prop_get config "title" ;;
          config <- (if negb (truthy t) then prop_set config "title" key
                     else ret config) ;;
          ret config
        else ret false_
    end.

(** ** [getFields] (lines 161-250) *)

(** One entry of the result: [{config: fldConfig, model: modelField}]. *)
Record entry : Type := Entry { config : value; model : data }.

(** The result object, in the order of insertion. *)
Abbreviation fields := (list (string * entry)).

Fixpoint result_get (result : fields) (k : string) : option entry :=
  match result with
  | [] => None
  | (k', e) :: rest => if String.eqb k k' then Some e else result_get rest k
  end.

(** [result[k] = e] *)
Fixpoint result_set (result : fields) (k : string) (e : entry) : fields :=
  match result with
  | [] => [(k, e)]
  | (k', e') :: rest =>
      if String.eqb k k' then (k, e) :: rest else (k', e') :: result_set rest k e
  end.

(** [m[key]] on a [fields] map of the configuration, by own properties: [key]
    is taken not to be the name of a member of [Object.prototype]
    ([object_prototype_names] below), which a read of an absent [key] would
    find. *)
Definition index (m : gmap string value) (key : string) : value :=
  default undefined (m !! key).

Section PrepareField.
(** The variables of [getFields] that its closure [_prepareField] reads:
    [fieldsConfig], [actionConfig.fields], [type] and
    [req._sails.config.adminpanel.identifierField]. *)
Variable fieldsConfig : gmap string value.
Variable actionFields : gmap string value.
Variable type : string.
Variable identifierField : data.

(** Lines 207-215: the global configuration of the instance. *)
Definition global_layer (key : string) (fldConfig : props) (ignoreField : bool)
  : M (props * bool) :=
  if value_truthy (index fieldsConfig key) || is_false (index fieldsConfig key) then
    if is_false (index fieldsConfig key) then ret (fldConfig, true)
    else
      tmpCfg <- _normalizeFieldConfig (index fieldsConfig key) (DString key) ;;
      fldConfig <- lodash_merge fldConfig tmpCfg ;;
      ret (fldConfig, ignoreField)
  else ret (fldConfig, ignoreField).

(** Lines 217-226: the configuration of the action. *)
Definition action_layer (key : string) (fldConfig : props) (ignoreField : bool)
  : M (props * bool) :=
  if value_truthy (index actionFields key) || is_false (index actionFields key) then
    if is_false (index actionFields key) then ret (fldConfig, true)
    else
      tmpCfg <- _normalizeFieldConfig (index actionFields key) (DString key) ;;
      fldConfig <- lodash_merge fldConfig tmpCfg ;;
      ret (fldConfig, false)
  else ret (fldConfig, ignoreField).

(** Lines 195-199: the short type of waterline, [fieldName: 'string']. *)
Definition model_field (modelField : data) : data :=
  if isString (VData modelField) then DObject [("type", modelField)]
  else modelField.

(** Lines 190-244. *)
Definition _prepareField (result : fields) (modelField : data) (key : string)
  : M fields :=
  let modelField := model_field modelField in
  if String.eqb type "add" && strict_eq_string key identifierField then
    ret result
  else
    st <- global_layer key [("key", DString key); ("title", DString key)] false ;;
    st <- action_layer key (fst st) (snd st) ;;
    if snd st then ret result
    else
      fldConfig <- _normalizeFieldConfig (VData (DObject (fst st))) (DString key) ;;
      required <- prop_get fldConfig "required" ;;
      fldConfig <- prop_set fldConfig "required"
                     (Boolean (js_or required (data_get modelField "required"))) ;;
      type_ <- prop_get fldConfig "type" ;;
      fldConfig <- prop_set fldConfig "type"
                     (js_or type_ (data_get modelField "type")) ;;
      ret (result_set result key (Entry fldConfig modelField)).

(** [_.forEach(modelAttributes, _prepareField)] *)
Fixpoint forEach (modelAttributes : props) (result : fields) : M fields :=
  match modelAttributes with
  | [] => ret result
  | (key, modelField) :: rest =>
      result <- _prepareField result modelField key ;;
      forEach rest result
  end.

End PrepareField.

(** The predicate of [_.pick] (line 179): plain objects and strings that are
    no association. *)
Definition is_field (val : data) : bool :=
  (isPlainObject (VData val) || isString (VData val))
  && negb (truthy (data_get val "collection"))
  && negb (truthy (data_get val "model")).

Definition pick_fields (attributes : props) : props :=
  List.filter (fun kv => is_field (snd kv)) attributes.

(** A model, as far as [getFields] looks at it: its [attributes], [None]
    when it has none. *)
Record model_t : Type := Model { attributes : option props }.

(** What [getFields] obtains from the request through [lib/adminUtil], which
    is outside this file: the [fields] of [util.findConfig(req)] ([None] when
    absent), the model of [util.findModel(req)], the [fields] of
    [util.findActionConfig(req, type)] and the configured identifier field. *)

Record request : Type := Request {
  config_fields : option (gmap string value);
  found_model : option model_t;
  action_fields : string -> gmap string value;
  identifier_field : data
}.

(** [type || 'list'] *)
Definition action_type (type : option string) : string :=
  match type with
  | Some t => if String.eqb t "" then "list" else t
  | None => "list"
  end.

(** [if (!model) model = util.findModel(req)] *)
Definition model_of (req : request) (model_ : option model_t) : option model_t :=
  match model_ with Some m => Some m | None => found_model req end.

Definition getFields (req : request) (model_ : option model_t)
  (type : option string) : M fields :=
  let model_ := model_of req model_ in
  match model_ with
  | None | Some (Model None) => ret []
  | Some (Model (Some attributes)) =>
      let type := action_type type in
      let actionFields := action_fields req type in
      let fieldsConfig := default ∅ (config_fields req) in
      let modelAttributes := pick_fields attributes in
      forEach fieldsConfig actionFields type (identifier_field req)
        modelAttributes []
  end.

(** * Notions used in the statements *)

(** The defaulting of lines 114-119, as a function of the properties. *)
Definition defaulted (ps : props) (key : data) : props :=
  let ps := if truthy (get ps "key") then ps else put ps "key" key in
  if truthy (get ps "title") then ps else put ps "title" key.

(** Whether a name is an own property. *)
Fixpoint has (ps : props) (k : string) : bool :=
  match ps with
  | [] => false
  | (k', _) :: rest => String.eqb k k' || has rest k
  end.

(** The plain-object notation as the specification words it: [key] is
    injected if absent, [title] defaults to [key] if absent, everything
    present stays. *)
Definition spec_normalize_object (o : props) (key : data) : props :=
  let o := if has o "key" then o else put o "key" key in
  if has o "title" then o else put o "title" key.


(** The attributes over which [getFields] iterates, none when it returns
    early. *)
Definition modelAttributes (req : request) (model_ : option model_t) : props :=
  match model_of req model_ with
  | Some (Model (Some attributes)) => pick_fields attributes
  | _ => []
  end.

Section Resolution.
Variable fieldsConfig : gmap string value.
Variable actionFields : gmap string value.
Variable type : string.
Variable identifierField : data.

(** The test of line 200. *)
Definition skipped (key : string) : bool :=
  String.eqb type "add" && strict_eq_string key identifierField.

(** The working configuration of line 204. *)
Definition initial_config (key : string) : props :=
  [("key", DString key); ("title", DString key)].

(** The properties that a truthy override hands to [_.merge] once
    normalised; [None] when it normalises to [false]. *)
Definition layer_source (v : value) (key : string) (h : heap) : option props :=
  match v with
  | VRef l => Some (defaulted (h !!! l) (DString key))
  | VData (DObject ps) => Some (defaulted ps (DString key))
  | VData (DString s) => Some [("key", DString key); ("title", DString s)]
  | VData (DBool true) => Some (initial_config key)
  | _ => None
  end.

(** The working configuration and [ignoreField] after a layer whose override
    is [v]; [reset] tells the action layer, which un-hides. *)
Definition layer_config (reset : bool) (v : value) (key : string) (h : heap)
  (st : props * bool) : props * bool :=
  if is_false v then (fst st, true)
  else if value_truthy v then
    (match layer_source v key h with
     | Some sps => merge_props (fst st) sps
     | None => fst st
     end,
     if reset then false else snd st)
  else st.

(** The store after a layer whose override is [v]. *)
Definition layer_heap (v : value) (key : string) (h : heap) : heap :=
  match v with
  | VRef l => <[l := defaulted (h !!! l) (DString key)]> h
  | _ => h
  end.

(** The working configuration and [ignoreField] at line 227. *)
Definition merged_config (key : string) (h : heap) : props * bool :=
  layer_config true (index actionFields key) key
    (layer_heap (index fieldsConfig key) key h)
    (layer_config false (index fieldsConfig key) key h
       (initial_config key, false)).

(** Lines 231-238 on the working configuration. *)
Definition finalize (fldConfig : props) (key : string) (modelField : data)
  : props :=
  let c := defaulted fldConfig (DString key) in
  let c := put c "required"
             (Boolean (js_or (get c "required") (data_get modelField "required"))) in
  put c "type" (js_or (get c "type") (data_get modelField "type")).

(** The result and the store after one call of [_prepareField]. *)
Definition field_result (result : fields) (modelField : data) (key : string)
  (h : heap) : fields :=
  if skipped key then result
  else if snd (merged_config key h) then result
  else
    result_set result key
      (Entry (VData (DObject (finalize (fst (merged_config key h)) key
                                (model_field modelField))))
         (model_field modelField)).

Definition field_heap (key : string) (h : heap) : heap :=
  if skipped key then h
  else layer_heap (index actionFields key) key
         (layer_heap (index fieldsConfig key) key h).

(** The override of the attribute [k], at one of the layers, is the shared
    object at [l]. *)
Definition names (k : string) (l : loc) : Prop :=
  index fieldsConfig k = VRef l \/ index actionFields k = VRef l.

(** What the resolution of the attributes [keys] may do to the store: a
    property changes only if it is a falsy [key] or [title] of an object that
    is the override of one of the attributes, and then to the name of that
    attribute. *)
Definition heap_step (keys : list string) (h h' : heap) : Prop :=
  forall (l : loc) (p : string),
    get (h' !!! l) p = get (h !!! l) p
    \/ ((p = "key" \/ p = "title")
        /\ truthy (get (h !!! l) p) = false
        /\ exists k, In k keys /\ names k l /\ get (h' !!! l) p = DString k).

End Resolution.



(** * The configuration of the documentation (lines 44-68)

    The instance [users] of the comment of [_normalizeFieldConfig], with the
    object of [bio] at the address 0, an 'edit' action that also retitles
    [bio] by the object at the address 1, and a 'view' action whose title for
    [createdAt] is the empty string and whose override of [id] is [null]. *)

Definition users_attributes : props :=
  [("id", DObject [("type", DString "integer")]);
   ("email", DString "string");
   ("bio", DObject [("type", DString "text")]);
   ("createdAt", DObject [("type", DString "datetime"); ("required", DBool true)]);
   ("posts", DObject [("collection", DString "post")])].

Definition users_model : option model_t := Some (Model (Some users_attributes)).

Definition users_heap : heap :=
  {[ 0 := [("title", DString "User bio"); ("editor", DBool true)];
     1 := [("title", DString "Biography")] ]}.

Definition users_request : request :=
  Request
    (Some {[ "email" := VData (DString "User Email");
             "createdAt" := false_;
             "bio" := VRef 0 ]})
    None
    (fun type =>
       if String.eqb type "list" then {[ "bio" := false_ ]}
       else if String.eqb type "edit" then
         {[ "createdAt" := VData (DString "Created at"); "bio" := VRef 1 ]}
       else if String.eqb type "view" then
         {[ "createdAt" := VData (DString ""); "id" := VData DNull ]}
       else ∅)
    (DString "id").

(** * Notions used in the further properties *)

(** What lines 205-229 leave in [ignoreField], read off the two overrides of
    an attribute: the action layer decides when its override is [false] or
    truthy, the global layer otherwise. *)
Definition visible (fieldsConfig actionFields : gmap string value)
  (key : string) : bool :=
  if is_false (index actionFields key) then false
  else if value_truthy (index actionFields key) then true
  else negb (is_false (index fieldsConfig key)).

(** An attribute name that [_prepareField] neither skips nor ignores. *)
Definition shown (fieldsConfig actionFields : gmap string value)
  (type : string) (identifierField : data) (key : string) : bool :=
  negb (skipped type identifierField key) && visible fieldsConfig actionFields key.

(** An object whose [key] and [title] are truthy: the defaulting of
    [_normalizeFieldConfig] has nothing left to write in it. *)
Definition settled (ps : props) : bool :=
  truthy (get ps "key") && truthy (get ps "title").

(** ** [isId] (lines 131-133) *)

(** [a == b], as far as it compares without a conversion: two strings, two
    booleans, and [null] or [undefined] against anything.  The comparisons
    that convert an operand or that compare numbers or the identity of
    objects are not embedded: [None]. *)
Definition loose_eq (a b : data) : option bool :=
  match a, b with
  | (DUndefined | DNull), (DUndefined | DNull) => Some true
  | (DUndefined | DNull), _ | _, (DUndefined | DNull) => Some false
  | DString s, DString t => Some (String.eqb s t)
  | DBool x, DBool y => Some (Bool.eqb x y)
  | _, _ => None
  end.

(** [field.config.key == util.config().identifierField], the identifier field
    of [util.config()], which is outside this file, being given. *)
Definition isId (field : entry) (identifierField : data) : M (option bool) :=
  key <- prop_get (config field) "key" ;;
  ret (loose_eq key identifierField).

(** ** Objects that refuse an assignment

    The definitions above take every shared object to accept an assignment,
    as the objects written in a configuration file do.  An object may also be
    sealed (no property can be added) or frozen (no property can be added or
    written), and the file is in strict mode ('use strict', line 1), where a
    refused assignment throws a TypeError.  The same code of
    [_normalizeFieldConfig] follows, over a store whose objects have such a
    level. *)






(** The names that every object inherits from [Object.prototype]: a read
    [m[key]] of such a name that is no own property of [m] finds the inherited
    member, which [index] does not follow. *)
Definition object_prototype_names : list string :=
  ["constructor"; "toString"; "toLocaleString"; "valueOf"; "hasOwnProperty";
   "isPrototypeOf"; "propertyIsEnumerable"; "__proto__"; "__defineGetter__";
   "__defineSetter__"; "__lookupGetter__"; "__lookupSetter__"].
(** * Properties *)

(** ** Own properties *)

Lemma get_put (ps : props) (k : string) (v : data) (k' : string) :
  get (put ps k v) k' = if String.eqb k' k then v else get ps k'.
Proof.
  induction ps as [|[k0 v0] ps IH]; simpl.
  - reflexivity.
  - destruct (String.eqb_spec k k0) as [->|Hne]; simpl.
    + destruct (String.eqb_spec k' k0); reflexivity.
    + rewrite IH. destruct (String.eqb_spec k' k0) as [->|]; [|reflexivity].
      destruct (String.eqb_spec k0 k); congruence.
Qed.

Lemma get_put_eq (ps : props) (k : string) (v : data) : get (put ps k v) k = v.
Proof. rewrite get_put, String.eqb_refl. reflexivity. Qed.

Lemma get_put_ne (ps : props) (k k' : string) (v : data) :
  k' <> k -> get (put ps k v) k' = get ps k'.
Proof.
  intros Hne. rewrite get_put.
  destruct (String.eqb_spec k' k); congruence.
Qed.

Lemma get_defaulted_key (ps : props) (key : data) :
  get (defaulted ps key) "key"
  = if truthy (get ps "key") then get ps "key" else key.
Proof.
  unfold defaulted.
  destruct (truthy (get ps "key")) eqn:Hk.
  - destruct (truthy (get ps "title")); [|rewrite get_put_ne by discriminate];
      reflexivity.
  - destruct (truthy (get (put ps "key" key) "title"));
      [|rewrite get_put_ne by discriminate]; apply get_put_eq.
Qed.

Lemma get_defaulted_title (ps : props) (key : data) :
  get (defaulted ps key) "title"
  = if truthy (get ps "title") then get ps "title" else key.
Proof.
  unfold defaulted.
  destruct (truthy (get ps "key")) eqn:Hk.
  - destruct (truthy (get ps "title")); [reflexivity | apply get_put_eq].
  - rewrite (get_put_ne ps "key" "title") by discriminate.
    destruct (truthy (get ps "title")).
    + apply get_put_ne. discriminate.
    + apply get_put_eq.
Qed.

Lemma get_defaulted_other (ps : props) (key : data) (p : string) :
  p <> "key" -> p <> "title" -> get (defaulted ps key) p = get ps p.
Proof.
  intros Hk Ht. unfold defaulted.
  destruct (truthy (get ps "key"));
    destruct (truthy (get _ "title"));
    rewrite ?get_put_ne by assumption; reflexivity.
Qed.

(** A truthy property is kept by the defaulting, whatever its name. *)
Lemma get_defaulted_truthy (ps : props) (key : data) (p : string) :
  truthy (get ps p) = true -> get (defaulted ps key) p = get ps p.
Proof.
  intros Hp.
  destruct (String.eqb_spec p "key") as [->|Hk].
  { rewrite get_defaulted_key, Hp. reflexivity. }
  destruct (String.eqb_spec p "title") as [->|Ht].
  { rewrite get_defaulted_title, Hp. reflexivity. }
  apply get_defaulted_other; assumption.
Qed.

(** ** [_normalizeFieldConfig] on the notations *)

Lemma insert_lookup_total_id (h : heap) (l : loc) (p : string) :
  truthy (get (h !!! l) p) = true -> <[l := h !!! l]> h = h.
Proof.
  intros Hp. apply insert_id. rewrite lookup_total_alt in *.
  destruct (h !! l); [reflexivity | discriminate].
Qed.

Lemma normalize_shared (l : loc) (key : data) (h : heap) :
  key <> DUndefined ->
  _normalizeFieldConfig (VRef l) key h
  = Ok (VRef l, <[l := defaulted (h !!! l) key]> h).
Proof.
  intros Hkey.
  unfold _normalizeFieldConfig, defaulted, bind, prop_get, prop_set, ret.
  destruct key; try congruence; simpl;
    destruct (truthy (get (h !!! l) "key")) eqn:Hk; simpl;
    rewrite ?lookup_total_insert_eq;
    match goal with
    | |- context [truthy (get ?ps "title")] =>
        destruct (truthy (get ps "title")) eqn:Ht
    end; simpl;
    rewrite ?insert_insert_eq, ?lookup_total_insert_eq;
    try reflexivity;
    rewrite (insert_lookup_total_id h l "key") by assumption; reflexivity.
Qed.

Lemma normalize_literal (ps : props) (key : data) (h : heap) :
  key <> DUndefined ->
  _normalizeFieldConfig (VData (DObject ps)) key h
  = Ok (VData (DObject (defaulted ps key)), h).
Proof.
  intros Hkey.
  unfold _normalizeFieldConfig, defaulted, bind, prop_get, prop_set, ret.
  destruct key; try congruence; simpl;
    destruct (truthy (get ps "key")); simpl;
    match goal with
    | |- context [truthy (get ?ps "title")] =>
        destruct (truthy (get ps "title"))
    end; reflexivity.
Qed.

(** C3: for every string key [k], [_normalizeFieldConfig] answers the
    notations as follows: [true] gives [{key: k, title: k}]; [false] gives
    the sentinel [false]; a string [s] gives [{key: k, title: s}]; and every
    raw value that is given (not [undefined]) and is neither a boolean, nor a
    string, nor a plain object gives [false].  The store is left as it is. *)
Theorem normalize_notations (k : string) (h : heap) :
  _normalizeFieldConfig (VData (DBool true)) (DString k) h
  = Ok (VData (DObject [("key", DString k); ("title", DString k)]), h)
  /\ _normalizeFieldConfig (VData (DBool false)) (DString k) h = Ok (false_, h)
  /\ (forall s : string,
        _normalizeFieldConfig (VData (DString s)) (DString k) h
        = Ok (VData (DObject [("key", DString k); ("title", DString s)]), h))
  /\ (forall raw : value,
        isUndefined raw = false -> isBoolean raw = false ->
        isString raw = false -> isPlainObject raw = false ->
        _normalizeFieldConfig raw (DString k) h = Ok (false_, h)).
Proof.
  repeat split; try reflexivity.
  intros raw Hu Hb Hs Hp.
  destruct raw as [d|l]; [|discriminate].
  destruct d; try discriminate; reflexivity.
Qed.

Lemma normalize_notations_witness :
  _normalizeFieldConfig (VData DNull) (DString "name") ∅
  = Ok (false_, ∅).
Proof.
  apply (proj2 (proj2 (proj2 (normalize_notations "name" ∅))));
    reflexivity.
Defined.




Lemma normalize_throws (raw : value) (key : data) (h : heap) :
  raw = undefined \/ key = DUndefined ->
  _normalizeFieldConfig raw key h = Throw no_config_or_key.
Proof.
  intros [->| ->]; [reflexivity|].
  unfold _normalizeFieldConfig. simpl. rewrite orb_true_r. reflexivity.
Qed.






(** C4, as the code has it: on a plain object, shared ([VRef]) or literal,
    [_normalizeFieldConfig] returns the object itself, in which [key] is set
    to the key when it was absent or falsy, [title] is set to the key when it
    was absent or falsy, and every other property, as well as a truthy [key]
    or [title], is as before; no other object of the store changes. *)
Theorem normalize_object (key : data) (h : heap) :
  key <> DUndefined ->
  (forall l : loc,
     exists h', _normalizeFieldConfig (VRef l) key h = Ok (VRef l, h')
       /\ get (h' !!! l) "key"
          = (if truthy (get (h !!! l) "key") then get (h !!! l) "key" else key)
       /\ get (h' !!! l) "title"
          = (if truthy (get (h !!! l) "title") then get (h !!! l) "title"
             else key)
       /\ (forall p, p <> "key" -> p <> "title" ->
           get (h' !!! l) p = get (h !!! l) p)
       /\ (forall l', l' <> l -> h' !! l' = h !! l'))
  /\ (forall o : props,
        exists o', _normalizeFieldConfig (VData (DObject o)) key h
                   = Ok (VData (DObject o'), h)
          /\ get o' "key" = (if truthy (get o "key") then get o "key" else key)
          /\ get o' "title"
             = (if truthy (get o "title") then get o "title" else key)
          /\ (forall p, p <> "key" -> p <> "title" -> get o' p = get o p)).
Proof.
  intros Hkey. split.
  - intros l. eexists. split; [apply normalize_shared, Hkey|].
    rewrite lookup_total_insert_eq.
    repeat split; auto using get_defaulted_key, get_defaulted_title,
      get_defaulted_other.
    intros l' Hl'. apply lookup_insert_ne. congruence.
  - intros o. exists (defaulted o key).
    repeat split; auto using normalize_literal, get_defaulted_key,
      get_defaulted_title, get_defaulted_other.
Qed.

Lemma normalize_object_witness :
  exists o', _normalizeFieldConfig (VData (DObject [("editor", DBool true)]))
               (DString "bio") ∅
             = Ok (VData (DObject o'), ∅)
    /\ get o' "key" = DString "bio"
    /\ get o' "title" = DString "bio"
    /\ (forall p, p <> "key" -> p <> "title" ->
        get o' p = get [("editor", DBool true)] p).
Proof.
  apply (proj2 (normalize_object (DString "bio") ∅
                  ltac:(discriminate))).
Defined.

(** C4 as worded fails on a property that is present but falsy: in
    [{title: ''}] the title is present, so the worded rule keeps it, while the
    code replaces it by the key. *)
Lemma normalize_object_falsy_title :
  let o := [("title", DString "")] in
  has o "title" = true
  /\ get (spec_normalize_object o (DString "name")) "title" = DString ""
  /\ _normalizeFieldConfig (VData (DObject o)) (DString "name") ∅
     = Ok (VData (DObject [("title", DString "name"); ("key", DString "name")]),
           ∅)
  /\ _normalizeFieldConfig (VRef 0) (DString "name") {[ 0 := o ]}
     = Ok (VRef 0,
           {[ 0 := [("title", DString "name"); ("key", DString "name")] ]}).
Proof.
  repeat split.
Qed.

(** ** [_.merge] read through the properties *)

Lemma get_merge_own (seen : list string) (sps acc : props) (p : string) :
  get (merge_own merge_data seen sps acc) p
  = if existsb (String.eqb p) seen then get acc p
    else merge_data (get acc p) (get sps p).
Proof.
  revert seen acc. induction sps as [|[k sv] rest IH]; intros seen acc; simpl.
  - destruct (existsb (String.eqb p) seen); reflexivity.
  - destruct (existsb (String.eqb k) seen) eqn:Hk.
    + rewrite IH. destruct (existsb (String.eqb p) seen) eqn:Hp; [reflexivity|].
      destruct (String.eqb_spec p k) as [->|]; [congruence | reflexivity].
    + rewrite IH. simpl.
      destruct (String.eqb_spec p k) as [->|Hne]; simpl.
      * rewrite Hk. destruct sv; try (rewrite get_put_eq); reflexivity.
      * assert (Hacc : get match sv with
                           | DUndefined => acc
                           | _ => put acc k (merge_data (get acc k) sv)
                           end p = get acc p).
        { destruct sv; rewrite ?get_put_ne by assumption; reflexivity. }
        rewrite Hacc. reflexivity.
Qed.

(** Every property of the merged object is the merge of the two properties
    of that name. *)
Lemma get_merge_props (object source : props) (p : string) :
  get (merge_props object source) p = merge_data (get object p) (get source p).
Proof. unfold merge_props. rewrite get_merge_own. reflexivity. Qed.

(** ** One call of [_prepareField] *)

Section Resolver.
Variable fieldsConfig : gmap string value.
Variable actionFields : gmap string value.
Variable type : string.
Variable identifierField : data.

Lemma layer_run (reset : bool) (v : value) (key : string) (fld : props)
  (ign : bool) (h : heap) :
  (if value_truthy v || is_false v then
     if is_false v then ret (fld, true)
     else
       tmpCfg <- _normalizeFieldConfig v (DString key) ;;
       fldConfig <- lodash_merge fld tmpCfg ;;
       ret (fldConfig, if reset then false else ign)
   else ret (fld, ign)) h
  = Ok (layer_config reset v key h (fld, ign), layer_heap v key h).
Proof.
  unfold layer_config, layer_heap.
  destruct v as [d|l].
  - destruct d as [| |[]|x|s|ps|vs|n]; try reflexivity.
    + simpl. destruct (number_truthy x); reflexivity.
    + simpl. destruct (String.eqb s ""); reflexivity.
    + simpl. unfold bind. rewrite normalize_literal by discriminate.
      reflexivity.
  - simpl. unfold bind. rewrite normalize_shared by discriminate.
    unfold lodash_merge. simpl. rewrite lookup_total_insert_eq. reflexivity.
Qed.

Lemma global_layer_run (key : string) (fld : props) (ign : bool) (h : heap) :
  global_layer fieldsConfig key fld ign h
  = Ok (layer_config false (index fieldsConfig key) key h (fld, ign),
        layer_heap (index fieldsConfig key) key h).
Proof. apply (layer_run false). Qed.

Lemma action_layer_run (key : string) (fld : props) (ign : bool) (h : heap) :
  action_layer actionFields key fld ign h
  = Ok (layer_config true (index actionFields key) key h (fld, ign),
        layer_heap (index actionFields key) key h).
Proof. apply (layer_run true). Qed.

Lemma layers_run (key : string) (h : heap) :
  (st <- global_layer fieldsConfig key (initial_config key) false ;;
   action_layer actionFields key (fst st) (snd st)) h
  = Ok (merged_config fieldsConfig actionFields key h,
        layer_heap (index actionFields key) key
          (layer_heap (index fieldsConfig key) key h)).
Proof.
  unfold bind. rewrite global_layer_run.
  destruct (layer_config false _ key h _) as [fld ign] eqn:E.
  simpl. rewrite action_layer_run. unfold merged_config. rewrite E.
  reflexivity.
Qed.

Lemma prepareField_run (result : fields) (modelField : data) (key : string)
  (h : heap) :
  _prepareField fieldsConfig actionFields type identifierField
    result modelField key h
  = Ok (field_result fieldsConfig actionFields type identifierField
          result modelField key h,
        field_heap fieldsConfig actionFields type identifierField key h).
Proof.
  unfold _prepareField, field_result, field_heap, skipped.
  destruct (String.eqb type "add" && strict_eq_string key identifierField);
    [reflexivity|].
  unfold bind at 1.
  pose proof (layers_run key h) as Hl. unfold bind in Hl.
  unfold initial_config in Hl. 
  destruct (global_layer fieldsConfig key _ false h) as [[st1 h1]|] eqn:E1;
    [|discriminate].
  unfold bind at 1. rewrite Hl.
  destruct (merged_config fieldsConfig actionFields key h) as [fld ign].
  simpl. destruct ign; [reflexivity|].
  unfold bind at 1. rewrite normalize_literal by discriminate.
  reflexivity.
Qed.

(** *** The result *)

Lemma result_get_set (result : fields) (k : string) (e : entry) (k' : string) :
  result_get (result_set result k e) k'
  = if String.eqb k' k then Some e else result_get result k'.
Proof.
  induction result as [|[k0 e0] result IH]; simpl.
  - reflexivity.
  - destruct (String.eqb_spec k k0) as [->|Hne]; simpl.
    + destruct (String.eqb_spec k' k0); reflexivity.
    + rewrite IH. destruct (String.eqb_spec k' k0) as [->|]; [|reflexivity].
      destruct (String.eqb_spec k0 k); congruence.
Qed.

Abbreviation field_result_ := (field_result fieldsConfig actionFields type identifierField).
Abbreviation field_heap_ := (field_heap fieldsConfig actionFields type identifierField).
Abbreviation forEach_ := (forEach fieldsConfig actionFields type identifierField).
Abbreviation heap_step_ := (heap_step fieldsConfig actionFields).
Abbreviation names_ := (names fieldsConfig actionFields).
Abbreviation skipped_ := (skipped type identifierField).
Abbreviation merged_config_ := (merged_config fieldsConfig actionFields).

Lemma field_result_other (result : fields) (mf : data) (k k' : string)
  (h : heap) :
  k' <> k -> result_get (field_result_ result mf k h) k' = result_get result k'.
Proof.
  intros Hne. unfold field_result.
  destruct (skipped_ k); [reflexivity|].
  destruct (snd _); [reflexivity|].
  rewrite result_get_set. destruct (String.eqb_spec k' k); congruence.
Qed.

Lemma forEach_cons (k : string) (mf : data) (rest : props) (result : fields)
  (h : heap) :
  forEach_ ((k, mf) :: rest) result h
  = forEach_ rest (field_result_ result mf k h) (field_heap_ k h).
Proof. simpl. unfold bind. rewrite prepareField_run. reflexivity. Qed.

(** The iteration returns: nothing in it throws. *)
Lemma forEach_returns (attrs : props) (result : fields) (h : heap) :
  exists result' h', forEach_ attrs result h = Ok (result', h').
Proof.
  revert result h. induction attrs as [|[k mf] rest IH]; intros result h.
  - eexists _, _. reflexivity.
  - rewrite forEach_cons. apply IH.
Qed.

Lemma forEach_not_in (attrs : props) (result result' : fields) (h h' : heap)
  (k : string) :
  ~ In k (map fst attrs) ->
  forEach_ attrs result h = Ok (result', h') ->
  result_get result' k = result_get result k.
Proof.
  revert result h. induction attrs as [|[k0 mf0] rest IH]; intros result h Hk.
  - intros [= <- _]. reflexivity.
  - rewrite forEach_cons. intros Hrun.
    rewrite (IH _ _ (fun H => Hk (or_intror H)) Hrun).
    apply field_result_other. intros ->. apply Hk. left. reflexivity.
Qed.

(** *** The store *)

Lemma heap_step_refl (keys : list string) (h : heap) : heap_step_ keys h h.
Proof. intros l p. left. reflexivity. Qed.

Lemma heap_step_trans (ks1 ks2 ks : list string) (h1 h2 h3 : heap) :
  (forall k, In k ks1 \/ In k ks2 -> In k ks) ->
  heap_step_ ks1 h1 h2 -> heap_step_ ks2 h2 h3 -> heap_step_ ks h1 h3.
Proof.
  intros Hks H12 H23 l p.
  destruct (H12 l p) as [E12|(Hp & Hf & k & Hk & Hn & Ek)].
  - destruct (H23 l p) as [E23|(Hp & Hf & k & Hk & Hn & Ek)].
    + left. congruence.
    + right. rewrite <- E12. eauto 10.
  - destruct (H23 l p) as [E23|(_ & _ & k' & Hk' & Hn' & Ek')].
    + right. rewrite E23. eauto 10.
    + right. eauto 10.
Qed.

Lemma layer_heap_step (v : value) (k : string) (h : heap) :
  v = index fieldsConfig k \/ v = index actionFields k ->
  heap_step_ [k] h (layer_heap v k h).
Proof.
  intros Hv l p. unfold layer_heap.
  destruct v as [d|l0]; [left; reflexivity|].
  destruct (decide (l = l0)) as [->|Hne];
    [|left; rewrite lookup_total_insert_ne by congruence; reflexivity].
  rewrite lookup_total_insert_eq.
  destruct (truthy (get (h !!! l0) p)) eqn:Hp.
  { left. apply get_defaulted_truthy, Hp. }
  assert (Hn : names_ k l0) by (destruct Hv; [left|right]; congruence).
  destruct (String.eqb_spec p "key") as [->|Hk].
  { right. rewrite get_defaulted_key, Hp. simpl. eauto 10. }
  destruct (String.eqb_spec p "title") as [->|Ht].
  { right. rewrite get_defaulted_title, Hp. simpl. eauto 10. }
  left. apply get_defaulted_other; assumption.
Qed.

Lemma field_heap_step (k : string) (h : heap) :
  heap_step_ [k] h (field_heap_ k h).
Proof.
  unfold field_heap. destruct (skipped_ k); [apply heap_step_refl|].
  eapply heap_step_trans; [|apply layer_heap_step; left; reflexivity
                           |apply layer_heap_step; right; reflexivity].
  intros k' [H|H]; exact H.
Qed.

Lemma forEach_heap_step (attrs : props) (result result' : fields)
  (h h' : heap) :
  forEach_ attrs result h = Ok (result', h') ->
  heap_step_ (map fst attrs) h h'.
Proof.
  revert result h. induction attrs as [|[k mf] rest IH]; intros result h.
  - intros [= _ <-]. apply heap_step_refl.
  - rewrite forEach_cons. intros Hrun.
    eapply heap_step_trans; [|apply (field_heap_step k)|apply (IH _ _ Hrun)].
    simpl. intros k' [[->|[]]|H]; auto.
Qed.

(** An object that is the override of none of the attributes is not written
    at all. *)
Lemma layer_heap_frame (v : value) (k : string) (h : heap) (l : loc) :
  v <> VRef l -> layer_heap v k h !! l = h !! l.
Proof.
  intros Hv. unfold layer_heap. destruct v as [d|l0]; [reflexivity|].
  apply lookup_insert_ne. congruence.
Qed.

Lemma forEach_frame (attrs : props) (result result' : fields) (h h' : heap)
  (l : loc) :
  (forall k, In k (map fst attrs) -> ~ names_ k l) ->
  forEach_ attrs result h = Ok (result', h') ->
  h' !! l = h !! l.
Proof.
  revert result h. induction attrs as [|[k mf] rest IH]; intros result h Hn.
  - intros [= _ <-]. reflexivity.
  - rewrite forEach_cons. intros Hrun.
    rewrite (IH _ _ (fun k' H => Hn k' (or_intror H)) Hrun).
    unfold field_heap. destruct (skipped_ k); [reflexivity|].
    assert (Hk : ~ names_ k l) by (apply Hn; left; reflexivity).
    rewrite !layer_heap_frame; [reflexivity| |];
      intros E; apply Hk; [left|right]; exact E.
Qed.

Lemma heap_step_truthy (keys : list string) (h h' : heap) (l : loc)
  (p : string) :
  heap_step_ keys h h' -> truthy (get (h !!! l) p) = true ->
  get (h' !!! l) p = get (h !!! l) p.
Proof. intros Hs Hp. destruct (Hs l p) as [E|(_ & Hf & _)]; congruence. Qed.

Lemma heap_step_other (keys : list string) (h h' : heap) (l : loc)
  (p : string) :
  heap_step_ keys h h' -> p <> "key" -> p <> "title" ->
  get (h' !!! l) p = get (h !!! l) p.
Proof.
  intros Hs Hk Ht. destruct (Hs l p) as [E|([]& _)]; congruence.
Qed.

(** *** Where an entry of the result comes from *)

(** With attribute names that are distinct, the entry of an attribute is the
    one its own call left, in the store that the earlier calls produced. *)
Lemma forEach_entry (attrs : props) (result result' : fields) (h h' : heap)
  (k : string) (mf : data) :
  NoDup (map fst attrs) -> In (k, mf) attrs ->
  forEach_ attrs result h = Ok (result', h') ->
  exists result1 h1,
    heap_step_ (map fst attrs) h h1
    /\ result_get result' k = result_get (field_result_ result1 mf k h1) k.
Proof.
  revert result h. induction attrs as [|[k0 mf0] rest IH];
    intros result h Hnd Hin; [destruct Hin|].
  rewrite forEach_cons. intros Hrun.
  apply NoDup_cons in Hnd as [Hk0 Hnd].
  destruct Hin as [[= -> ->]|Hin].
  - exists result, h. split; [apply heap_step_refl|].
    eapply forEach_not_in; [|exact Hrun].
    intros H. apply Hk0. apply list_elem_of_In. exact H.
  - destruct (IH _ _ Hnd Hin Hrun) as (r1 & h1 & Hs & Hr).
    exists r1, h1. split; [|exact Hr].
    eapply heap_step_trans; [|apply (field_heap_step k0)|exact Hs].
    simpl. intros k' [[->|[]]|H]; auto.
Qed.

(** Every entry of the result was there before or was left by the call for
    an attribute of its name, which was neither skipped nor ignored. *)
Lemma forEach_provenance (attrs : props) (result result' : fields)
  (h h' : heap) (k : string) (e : entry) :
  forEach_ attrs result h = Ok (result', h') ->
  result_get result' k = Some e ->
  result_get result k = Some e
  \/ exists mf h1,
       In (k, mf) attrs
       /\ heap_step_ (map fst attrs) h h1
       /\ skipped_ k = false
       /\ snd (merged_config_ k h1) = false
       /\ e = Entry (VData (DObject (finalize (fst (merged_config_ k h1)) k
                                       (model_field mf))))
                (model_field mf).
Proof.
  revert result h. induction attrs as [|[k0 mf0] rest IH]; intros result h.
  - intros [= <- _] He. left. exact He.
  - rewrite forEach_cons. intros Hrun He.
    assert (Hstep : forall h1, heap_step_ (map fst rest) (field_heap_ k0 h) h1 ->
                               heap_step_ (map fst ((k0, mf0) :: rest)) h h1).
    { intros h1 Hs.
      eapply heap_step_trans; [|apply (field_heap_step k0)|exact Hs].
      simpl. intros k' [[->|[]]|H]; auto. }
    destruct (IH _ _ Hrun He) as [Hr|(mf & h1 & Hin & Hs & Hsk & Hig & ->)].
    + unfold field_result in Hr.
      destruct (skipped_ k0) eqn:Hsk; [left; exact Hr|].
      destruct (snd (merged_config_ k0 h)) eqn:Hig; [left; exact Hr|].
      rewrite result_get_set in Hr.
      destruct (String.eqb_spec k k0) as [->|Hne]; [|left; exact Hr].
      injection Hr as <-. right. exists mf0, h.
      repeat split; auto using heap_step_refl. left. reflexivity.
    + right. exists mf, h1. repeat split; auto. right. exact Hin.
Qed.

(** *** The emitted configuration *)

Lemma get_finalize_required (fld : props) (k : string) (mf : data) :
  get (finalize fld k mf) "required"
  = Boolean (js_or (get fld "required") (data_get mf "required")).
Proof.
  unfold finalize. rewrite get_put_ne by discriminate. rewrite get_put_eq.
  rewrite get_defaulted_other by discriminate. reflexivity.
Qed.

Lemma get_finalize_type (fld : props) (k : string) (mf : data) :
  get (finalize fld k mf) "type"
  = js_or (get fld "type") (data_get mf "type").
Proof.
  unfold finalize. rewrite get_put_eq, get_put_ne by discriminate.
  rewrite get_defaulted_other by discriminate. reflexivity.
Qed.

Lemma get_finalize_key (fld : props) (k : string) (mf : data) :
  get (finalize fld k mf) "key"
  = if truthy (get fld "key") then get fld "key" else DString k.
Proof.
  unfold finalize. rewrite !get_put_ne by discriminate.
  apply get_defaulted_key.
Qed.

Lemma get_finalize_title (fld : props) (k : string) (mf : data) :
  get (finalize fld k mf) "title"
  = if truthy (get fld "title") then get fld "title" else DString k.
Proof.
  unfold finalize. rewrite !get_put_ne by discriminate.
  apply get_defaulted_title.
Qed.

Lemma get_finalize_other (fld : props) (k : string) (mf : data) (p : string) :
  p <> "key" -> p <> "title" -> p <> "required" -> p <> "type" ->
  get (finalize fld k mf) p = get fld p.
Proof.
  intros Hk Ht Hr Hy. unfold finalize. rewrite !get_put_ne by assumption.
  apply get_defaulted_other; assumption.
Qed.

Lemma field_result_emitted (result : fields) (mf : data) (k : string)
  (h : heap) :
  skipped_ k = false -> snd (merged_config_ k h) = false ->
  result_get (field_result_ result mf k h) k
  = Some (Entry (VData (DObject (finalize (fst (merged_config_ k h)) k
                                   (model_field mf))))
            (model_field mf)).
Proof.
  intros Hs Hi. unfold field_result. rewrite Hs, Hi, result_get_set.
  rewrite String.eqb_refl. reflexivity.
Qed.

(** The entry of an attribute that no store reachable by the earlier calls
    lets ignore. *)
Lemma forEach_emitted (attrs : props) (h : heap) (k : string) (mf : data) :
  NoDup (map fst attrs) -> In (k, mf) attrs -> skipped_ k = false ->
  (forall h1, heap_step_ (map fst attrs) h h1 ->
              snd (merged_config_ k h1) = false) ->
  exists res h' h1,
    forEach_ attrs [] h = Ok (res, h')
    /\ heap_step_ (map fst attrs) h h1
    /\ result_get res k
       = Some (Entry (VData (DObject (finalize (fst (merged_config_ k h1)) k
                                        (model_field mf))))
                 (model_field mf)).
Proof.
  intros Hnd Hin Hsk Hig.
  destruct (forEach_returns attrs [] h) as (res & h' & Hrun).
  destruct (forEach_entry _ _ _ _ _ _ _ Hnd Hin Hrun) as (r1 & h1 & Hs & Hr).
  exists res, h', h1. repeat split; auto.
  rewrite Hr. apply field_result_emitted; auto.
Qed.

(** An attribute that is skipped leaves no entry. *)
Lemma forEach_skipped (attrs : props) (result result' : fields) (h h' : heap)
  (k : string) :
  skipped_ k = true ->
  forEach_ attrs result h = Ok (result', h') ->
  result_get result' k = result_get result k.
Proof.
  intros Hsk. revert result h.
  induction attrs as [|[k0 mf0] rest IH]; intros result h.
  - intros [= <- _]. reflexivity.
  - rewrite forEach_cons. intros Hrun. rewrite (IH _ _ Hrun).
    destruct (String.eqb_spec k k0) as [<-|Hne].
    + unfold field_result. rewrite Hsk. reflexivity.
    + apply field_result_other, Hne.
Qed.

End Resolver.

(** Under an action other than 'add' the identifier field plays no part. *)
Lemma forEach_identifier (fieldsConfig actionFields : gmap string value)
  (type : string) (id1 id2 : data) (attrs : props) (result : fields)
  (h : heap) :
  type <> "add" ->
  forEach fieldsConfig actionFields type id1 attrs result h
  = forEach fieldsConfig actionFields type id2 attrs result h.
Proof.
  intros Hty. revert result h.
  induction attrs as [|[k mf] rest IH]; intros result h; [reflexivity|].
  rewrite !forEach_cons.
  unfold field_result, field_heap, skipped.
  destruct (String.eqb_spec type "add"); [contradiction|]. simpl. apply IH.
Qed.

(** ** [getFields] *)

Lemma getFields_forEach (req : request) (model_ : option model_t)
  (type : option string) :
  getFields req model_ type
  = forEach (default ∅ (config_fields req))
      (action_fields req (action_type type)) (action_type type)
      (identifier_field req) (modelAttributes req model_) [].
Proof.
  unfold getFields, modelAttributes.
  destruct (model_of req model_) as [[[attributes|]]|]; reflexivity.
Qed.

Section GetFields.
Variable req : request.
Variable model_ : option model_t.
Variable type_ : option string.

Abbreviation F := (default ∅ (config_fields req)).
Abbreviation A := (action_fields req (action_type type_)).
Abbreviation attrs := (modelAttributes req model_).
Abbreviation skipped' := (skipped (action_type type_) (identifier_field req)).
Abbreviation merged' := (merged_config F A).
Abbreviation step' := (heap_step F A (map fst attrs)).

(** [getFields] returns, whatever the request. *)
Lemma getFields_returns (h : heap) :
  exists res h', getFields req model_ type_ h = Ok (res, h').
Proof. rewrite getFields_forEach. apply forEach_returns. Qed.

Lemma getFields_emitted (h : heap) (k : string) (mf : data) :
  NoDup (map fst attrs) -> In (k, mf) attrs -> skipped' k = false ->
  (forall h1, step' h h1 -> snd (merged' k h1) = false) ->
  exists res h' h1,
    getFields req model_ type_ h = Ok (res, h')
    /\ step' h h1
    /\ result_get res k
       = Some (Entry (VData (DObject (finalize (fst (merged' k h1)) k
                                        (model_field mf))))
                 (model_field mf)).
Proof. rewrite getFields_forEach. apply forEach_emitted. Qed.

End GetFields.

(** C7: under the action 'add' the attribute named by the configured
    identifier field has no entry in the result of [getFields], whatever the
    two layers hold for it; under any other action the result is the same
    whatever the identifier field, so that the attribute it names is resolved
    as every other one. *)
Theorem identifier_skipped_on_add (req : request) (model_ : option model_t)
  (type_ : option string) (h : heap) :
  (forall k : string,
     action_type type_ = "add" -> identifier_field req = DString k ->
     exists res h', getFields req model_ type_ h = Ok (res, h')
                    /\ result_get res k = None)
  /\ (action_type type_ <> "add" ->
      forall id' : data,
        getFields (Request (config_fields req) (found_model req)
                     (action_fields req) id') model_ type_ h
        = getFields req model_ type_ h).
Proof.
  split.
  - intros k Hty Hid.
    destruct (getFields_returns req model_ type_ h) as (res & h' & Hrun).
    exists res, h'. split; [exact Hrun|].
    rewrite getFields_forEach in Hrun.
    eapply forEach_skipped in Hrun; [exact Hrun|].
    unfold skipped. rewrite Hty, Hid. simpl. apply String.eqb_refl.
  - intros Hty id'. rewrite !getFields_forEach. simpl.
    apply forEach_identifier, Hty.
Qed.

Lemma identifier_skipped_on_add_witness :
  (exists res h', getFields users_request users_model (Some "add") users_heap
                  = Ok (res, h')
                  /\ result_get res "id" = None)
  /\ getFields (Request (config_fields users_request)
                  (found_model users_request) (action_fields users_request)
                  (DString "email")) users_model (Some "edit") users_heap
     = getFields users_request users_model (Some "edit") users_heap.
Proof.
  split.
  - apply (proj1 (identifier_skipped_on_add users_request users_model
                    (Some "add") users_heap) "id"); reflexivity.
  - apply (proj2 (identifier_skipped_on_add users_request users_model
                    (Some "edit") users_heap)). discriminate.
Defined.

(** The users of the documentation under 'list': [id] and [email] are shown,
    [email] under its configured title; [bio] is hidden by the action,
    [createdAt] by the instance, and the association [posts] is no field. *)
Example users_list :
  exists h',
    getFields users_request users_model None users_heap
    = Ok ([("id",
            Entry (VData (DObject [("key", DString "id");
                                   ("title", DString "id");
                                   ("required", DBool false);
                                   ("type", DString "integer")]))
              (DObject [("type", DString "integer")]));
           ("email",
            Entry (VData (DObject [("key", DString "email");
                                   ("title", DString "User Email");
                                   ("required", DBool false);
                                   ("type", DString "string")]))
              (DObject [("type", DString "string")]))],
          h').
Proof. eexists. vm_compute. reflexivity. Qed.

(** Distinct names of a given list of attributes, by evaluation. *)
Ltac distinct_names :=
  apply (bool_decide_unpack _); vm_compute; exact I.

Lemma truthy_not_false (v : value) : value_truthy v = true -> is_false v = false.
Proof. destruct v as [[| |[]| | | | |]|]; simpl; congruence. Qed.

(** C1, as the code has it: when the global override of an attribute is
    literally [false] and its action-level override is truthy (anything but
    [undefined], [null], [false], [0], [NaN] and the empty string), and the
    attribute is not the identifier field under 'add', the result of
    [getFields] has an entry for it; if the action override is a string, that
    string is its title and the attribute name its key, and if it is an
    object with a non-empty string for title, that string is its title.  The
    attribute names are distinct, as the property names of an object are. *)
Theorem action_override_unhides (req : request) (model_ : option model_t)
  (type_ : option string) (h : heap) (k : string) (mf : data) :
  NoDup (map fst (modelAttributes req model_)) ->
  In (k, mf) (modelAttributes req model_) ->
  skipped (action_type type_) (identifier_field req) k = false ->
  index (default ∅ (config_fields req)) k = false_ ->
  value_truthy (index (action_fields req (action_type type_)) k) = true ->
  exists res h' cfg,
    getFields req model_ type_ h = Ok (res, h')
    /\ result_get res k = Some (Entry (VData (DObject cfg)) (model_field mf))
    /\ (forall s, index (action_fields req (action_type type_)) k
                  = VData (DString s) ->
                  get cfg "key" = DString k /\ get cfg "title" = DString s)
    /\ (forall l t, index (action_fields req (action_type type_)) k = VRef l ->
                    get (h !!! l) "title" = DString t -> t <> "" ->
                    get cfg "title" = DString t).
Proof.
  intros Hnd Hin Hsk Hf Ha.
  assert (Hm : forall h1,
             merged_config (default ∅ (config_fields req))
               (action_fields req (action_type type_)) k h1
             = (match layer_source
                        (index (action_fields req (action_type type_)) k) k h1
                with
                | Some sps => merge_props (initial_config k) sps
                | None => initial_config k
                end, false)).
  { intros h1. unfold merged_config. rewrite Hf. unfold layer_config at 2.
    simpl. unfold layer_config. rewrite (truthy_not_false _ Ha), Ha.
    reflexivity. }
  destruct (getFields_emitted req model_ type_ h k mf Hnd Hin Hsk)
    as (res & h' & h1 & Hrun & Hs & Hr).
  { intros h1 _. rewrite Hm. reflexivity. }
  rewrite Hm in Hr. simpl in Hr.
  eexists res, h', _. split; [exact Hrun|]. split; [exact Hr|]. split.
  - intros s Es. rewrite Es in Ha |- *. simpl in Ha |- *.
    rewrite get_finalize_key, get_finalize_title, !get_merge_props. simpl.
    rewrite Ha. split; [|reflexivity].
    destruct (negb (String.eqb k "")); reflexivity.
  - intros l t El Et Hne. rewrite El. simpl.
    rewrite get_finalize_title, get_merge_props, get_defaulted_title.
    assert (Htr : truthy (get (h !!! l) "title") = true).
    { rewrite Et. simpl.
      destruct (String.eqb_spec t ""); [congruence | reflexivity]. }
    rewrite (heap_step_truthy _ _ _ _ _ _ _ Hs Htr), Htr, Et. simpl.
    destruct (String.eqb_spec t ""); [congruence | reflexivity].
Qed.

Lemma action_override_unhides_witness :
  exists res h' cfg,
    getFields users_request users_model (Some "edit") users_heap = Ok (res, h')
    /\ result_get res "createdAt"
       = Some (Entry (VData (DObject cfg))
                 (model_field (DObject [("type", DString "datetime");
                                        ("required", DBool true)])))
    /\ (forall s, index (action_fields users_request (action_type (Some "edit")))
                    "createdAt" = VData (DString s) ->
                  get cfg "key" = DString "createdAt"
                  /\ get cfg "title" = DString s)
    /\ (forall l t, index (action_fields users_request
                            (action_type (Some "edit"))) "createdAt" = VRef l ->
                    get (users_heap !!! l) "title" = DString t -> t <> "" ->
                    get cfg "title" = DString t).
Proof.
  apply (action_override_unhides users_request users_model (Some "edit")
           users_heap "createdAt").
  - distinct_names.
  - vm_compute. auto.
  - reflexivity.
  - reflexivity.
  - reflexivity.
Defined.

(** C1 as worded fails on a defined, non-[false] action override that is
    falsy: with [createdAt: false] at the global layer and [createdAt: ''] at
    the layer of the action 'view', [createdAt] stays hidden. *)
Lemma action_override_empty_string_hidden :
  In "createdAt" (map fst (modelAttributes users_request users_model))
  /\ index (default ∅ (config_fields users_request)) "createdAt" = false_
  /\ index (action_fields users_request (action_type (Some "view"))) "createdAt"
     = VData (DString "")
  /\ exists res h',
       getFields users_request users_model (Some "view") users_heap
       = Ok (res, h')
       /\ result_get res "createdAt" = None.
Proof.
  split; [vm_compute; auto|]. split; [reflexivity|]. split; [reflexivity|].
  eexists _, _. split; [vm_compute; reflexivity | reflexivity].
Qed.

(** C2: when both layers hold an object for an attribute, the global one with
    [title] A and [editor: true], the one of the action with [title] B and no
    [editor], the resolved configuration has the title B and [editor: true];
    and, besides [key], [title], [required] and [type], each of its
    properties is the merge of the global property with the property of the
    action: the layers are merged, the action layer does not stand in for the
    global one. *)
Theorem layers_are_merged (req : request) (model_ : option model_t)
  (type_ : option string) (h : heap) (k : string) (mf : data)
  (lg la : loc) (tA tB : string) :
  NoDup (map fst (modelAttributes req model_)) ->
  In (k, mf) (modelAttributes req model_) ->
  skipped (action_type type_) (identifier_field req) k = false ->
  index (default ∅ (config_fields req)) k = VRef lg ->
  index (action_fields req (action_type type_)) k = VRef la ->
  get (h !!! lg) "title" = DString tA ->
  get (h !!! lg) "editor" = DBool true ->
  get (h !!! la) "title" = DString tB -> tB <> "" ->
  get (h !!! la) "editor" = DUndefined ->
  exists res h' cfg,
    getFields req model_ type_ h = Ok (res, h')
    /\ result_get res k = Some (Entry (VData (DObject cfg)) (model_field mf))
    /\ get cfg "title" = DString tB
    /\ get cfg "editor" = DBool true
    /\ (forall p, p <> "key" -> p <> "title" -> p <> "required" ->
                  p <> "type" ->
                  get cfg p
                  = merge_data (merge_data DUndefined (get (h !!! lg) p))
                      (get (h !!! la) p)).
Proof.
  intros Hnd Hin Hsk Hf Ha HtA HeA HtB HneB HeB.
  assert (Hm : forall h1,
             merged_config (default ∅ (config_fields req))
               (action_fields req (action_type type_)) k h1
             = (merge_props
                  (merge_props (initial_config k)
                     (defaulted (h1 !!! lg) (DString k)))
                  (defaulted (layer_heap (VRef lg) k h1 !!! la) (DString k)),
                false)).
  { intros h1. unfold merged_config. rewrite Hf, Ha. reflexivity. }
  destruct (getFields_emitted req model_ type_ h k mf Hnd Hin Hsk)
    as (res & h' & h1 & Hrun & Hs & Hr).
  { intros h1 _. rewrite Hm. reflexivity. }
  rewrite Hm in Hr. cbn [fst] in Hr.
  assert (Hs2 : heap_step (default ∅ (config_fields req))
                  (action_fields req (action_type type_))
                  (k :: map fst (modelAttributes req model_))
                  h (layer_heap (VRef lg) k h1)).
  { eapply heap_step_trans; [|exact Hs|apply (layer_heap_step _ _ (VRef lg) k)].
    - intros k' [H|[<-|[]]]; [right; exact H | left; reflexivity].
    - left. symmetry. exact Hf. }
  assert (HtrB : truthy (get (h !!! la) "title") = true).
  { rewrite HtB. simpl. destruct (String.eqb_spec tB ""); [congruence | reflexivity]. }
  assert (Hother : forall p, p <> "key" -> p <> "title" -> p <> "required" ->
                             p <> "type" ->
             get (finalize
                    (merge_props
                       (merge_props (initial_config k)
                          (defaulted (h1 !!! lg) (DString k)))
                       (defaulted (layer_heap (VRef lg) k h1 !!! la) (DString k)))
                    k (model_field mf)) p
             = merge_data (merge_data DUndefined (get (h !!! lg) p))
                 (get (h !!! la) p)).
  { intros p Hk Ht Hr' Hy.
    rewrite get_finalize_other, !get_merge_props by assumption.
    rewrite !get_defaulted_other by assumption.
    rewrite (heap_step_other _ _ _ _ _ _ _ Hs Hk Ht).
    rewrite (heap_step_other _ _ _ _ _ _ _ Hs2 Hk Ht).
    f_equal. f_equal. simpl.
    destruct (String.eqb_spec p "key"); [contradiction|].
    destruct (String.eqb_spec p "title"); [contradiction|]. reflexivity. }
  eexists res, h', _. split; [exact Hrun|]. split; [exact Hr|].
  split; [|split; [|exact Hother]].
  - rewrite get_finalize_title, !get_merge_props.
    rewrite (get_defaulted_title (layer_heap _ _ _ !!! la)).
    rewrite (heap_step_truthy _ _ _ _ _ _ _ Hs2 HtrB), HtrB, HtB. simpl.
    destruct (String.eqb_spec tB ""); [congruence | reflexivity].
  - rewrite Hother by discriminate. rewrite HeA, HeB. reflexivity.
Qed.

Lemma layers_are_merged_witness :
  exists res h' cfg,
    getFields users_request users_model (Some "edit") users_heap = Ok (res, h')
    /\ result_get res "bio"
       = Some (Entry (VData (DObject cfg))
                 (model_field (DObject [("type", DString "text")])))
    /\ get cfg "title" = DString "Biography"
    /\ get cfg "editor" = DBool true
    /\ (forall p, p <> "key" -> p <> "title" -> p <> "required" ->
                  p <> "type" ->
                  get cfg p
                  = merge_data (merge_data DUndefined (get (users_heap !!! 0) p))
                      (get (users_heap !!! 1) p)).
Proof.
  apply (layers_are_merged users_request users_model (Some "edit") users_heap
           "bio" _ 0 1 "User bio" "Biography").
  - distinct_names.
  - vm_compute. auto.
  - reflexivity.
  - reflexivity.
  - reflexivity.
  - reflexivity.
  - reflexivity.
  - reflexivity.
  - discriminate.
  - reflexivity.
Defined.

Lemma defaulted_initial (k : string) :
  defaulted (initial_config k) (DString k) = initial_config k.
Proof.
  unfold defaulted, initial_config. cbn.
  destruct (negb (String.eqb k "")); cbn;
    destruct (negb (String.eqb k "")); reflexivity.
Qed.

(** The configuration of an attribute that no layer touches. *)
Lemma finalize_initial (k : string) (mf : data) :
  finalize (initial_config k) k mf
  = [("key", DString k); ("title", DString k);
     ("required", Boolean (data_get mf "required"));
     ("type", data_get mf "type")].
Proof. unfold finalize. rewrite defaulted_initial. reflexivity. Qed.

Lemma layer_passed_over (reset : bool) (v : value) (k : string) (h : heap)
  (st : props * bool) :
  value_truthy v = false -> is_false v = false ->
  layer_config reset v k h st = st /\ layer_heap v k h = h.
Proof.
  intros Ht Hf. unfold layer_config, layer_heap.
  rewrite Ht, Hf. destruct v; [split; reflexivity | discriminate].
Qed.

(** The entry of an attribute whose overrides are passed over at both
    layers. *)
Lemma getFields_no_override (req : request) (model_ : option model_t)
  (type_ : option string) (h : heap) (k : string) (mf : data) :
  NoDup (map fst (modelAttributes req model_)) ->
  In (k, mf) (modelAttributes req model_) ->
  skipped (action_type type_) (identifier_field req) k = false ->
  value_truthy (index (default ∅ (config_fields req)) k) = false ->
  is_false (index (default ∅ (config_fields req)) k) = false ->
  value_truthy (index (action_fields req (action_type type_)) k) = false ->
  is_false (index (action_fields req (action_type type_)) k) = false ->
  exists res h',
    getFields req model_ type_ h = Ok (res, h')
    /\ result_get res k
       = Some (Entry
                 (VData (DObject
                    [("key", DString k); ("title", DString k);
                     ("required",
                      Boolean (data_get (model_field mf) "required"));
                     ("type", data_get (model_field mf) "type")]))
                 (model_field mf)).
Proof.
  intros Hnd Hin Hsk HtF HfF HtA HfA.
  assert (Hm : forall h1,
             merged_config (default ∅ (config_fields req))
               (action_fields req (action_type type_)) k h1
             = (initial_config k, false)).
  { intros h1. unfold merged_config.
    destruct (layer_passed_over false _ k h1 (initial_config k, false) HtF HfF)
      as [-> ->].
    apply (layer_passed_over true _ k h1 _ HtA HfA). }
  destruct (getFields_emitted req model_ type_ h k mf Hnd Hin Hsk)
    as (res & h' & h1 & Hrun & Hs & Hr).
  { intros h1 _. rewrite Hm. reflexivity. }
  rewrite Hm in Hr. cbn [fst] in Hr. rewrite finalize_initial in Hr.
  exists res, h'. split; assumption.
Qed.

(** C10: at each layer an override that is falsy without being [false]
    ([undefined], also when the property is present, [null], [0], [NaN], the
    empty string) is passed over: the layer leaves the working configuration,
    [ignoreField] and the store as they are.  With such a value, or none, at
    both layers, the attribute (not being the identifier under 'add')
    resolves to its name for key and title and to the [required] and [type]
    of the model. *)
Theorem falsy_override_passed_over (req : request) (model_ : option model_t)
  (type_ : option string) (h : heap) (k : string) :
  (value_truthy (index (default ∅ (config_fields req)) k) = false ->
   is_false (index (default ∅ (config_fields req)) k) = false ->
   forall fld ign,
     global_layer (default ∅ (config_fields req)) k fld ign h
     = Ok ((fld, ign), h))
  /\ (value_truthy (index (action_fields req (action_type type_)) k) = false ->
      is_false (index (action_fields req (action_type type_)) k) = false ->
      forall fld ign,
        action_layer (action_fields req (action_type type_)) k fld ign h
        = Ok ((fld, ign), h))
  /\ (forall mf,
        NoDup (map fst (modelAttributes req model_)) ->
        In (k, mf) (modelAttributes req model_) ->
        skipped (action_type type_) (identifier_field req) k = false ->
        value_truthy (index (default ∅ (config_fields req)) k) = false ->
        is_false (index (default ∅ (config_fields req)) k) = false ->
        value_truthy (index (action_fields req (action_type type_)) k) = false ->
        is_false (index (action_fields req (action_type type_)) k) = false ->
        exists res h',
          getFields req model_ type_ h = Ok (res, h')
          /\ result_get res k
             = Some (Entry
                       (VData (DObject
                          [("key", DString k); ("title", DString k);
                           ("required",
                            Boolean (data_get (model_field mf) "required"));
                           ("type", data_get (model_field mf) "type")]))
                       (model_field mf))).
Proof.
  split; [|split].
  - intros Ht Hf fld ign. rewrite global_layer_run.
    destruct (layer_passed_over false _ k h (fld, ign) Ht Hf) as [-> ->].
    reflexivity.
  - intros Ht Hf fld ign. rewrite action_layer_run.
    destruct (layer_passed_over true _ k h (fld, ign) Ht Hf) as [-> ->].
    reflexivity.
  - intros mf. apply getFields_no_override.
Qed.

Lemma falsy_override_passed_over_witness :
  exists res h',
    getFields users_request users_model (Some "view") users_heap = Ok (res, h')
    /\ result_get res "id"
       = Some (Entry
                 (VData (DObject
                    [("key", DString "id"); ("title", DString "id");
                     ("required", DBool false);
                     ("type", DString "integer")]))
                 (DObject [("type", DString "integer")])).
Proof.
  apply (proj2 (proj2 (falsy_override_passed_over users_request users_model
                         (Some "view") users_heap "id"))
           (DObject [("type", DString "integer")])).
  - distinct_names.
  - vm_compute. auto.
  - reflexivity.
  - reflexivity.
  - reflexivity.
  - reflexivity.
  - reflexivity.
Defined.

(** C8: every entry of the result of [getFields] belongs to an attribute of
    its name and, [merged] being the working configuration that the two
    layers leave for it, has [required] equal to
    [Boolean(merged.required || modelField.required)], true as soon as one of
    the two is truthy, and [type] equal to [merged.type || modelField.type]:
    the type of [merged] when it has a truthy one, the type of the model
    attribute when it has none.  In particular an attribute declared by a short type such as 'string', with
    no override at either layer, resolves to that type and to
    [required: false]. *)
Theorem required_and_type (req : request) (model_ : option model_t)
  (type_ : option string) (h : heap) :
  (forall res h' k e,
     getFields req model_ type_ h = Ok (res, h') ->
     result_get res k = Some e ->
     exists mf h1 h2 merged cfg,
       In (k, mf) (modelAttributes req model_)
       /\ heap_step (default ∅ (config_fields req))
            (action_fields req (action_type type_))
            (map fst (modelAttributes req model_)) h h1
       /\ (st <- global_layer (default ∅ (config_fields req)) k
                   [("key", DString k); ("title", DString k)] false ;;
           action_layer (action_fields req (action_type type_)) k
             (fst st) (snd st)) h1
          = Ok ((merged, false), h2)
       /\ e = Entry (VData (DObject cfg)) (model_field mf)
       /\ get cfg "required"
          = Boolean (js_or (get merged "required")
                       (data_get (model_field mf) "required"))
       /\ get cfg "required"
          = DBool (truthy (get merged "required")
                   || truthy (data_get (model_field mf) "required"))
       /\ get cfg "type"
          = js_or (get merged "type") (data_get (model_field mf) "type")
       /\ (truthy (get merged "type") = true ->
           get cfg "type" = get merged "type")
       /\ (get merged "type" = DUndefined ->
           get cfg "type" = data_get (model_field mf) "type"))
  /\ (forall k s,
        NoDup (map fst (modelAttributes req model_)) ->
        In (k, DString s) (modelAttributes req model_) ->
        skipped (action_type type_) (identifier_field req) k = false ->
        index (default ∅ (config_fields req)) k = undefined ->
        index (action_fields req (action_type type_)) k = undefined ->
        exists res h' cfg,
          getFields req model_ type_ h = Ok (res, h')
          /\ result_get res k
             = Some (Entry (VData (DObject cfg)) (DObject [("type", DString s)]))
          /\ get cfg "type" = DString s
          /\ get cfg "required" = DBool false).
Proof.
  split.
  - intros res h' k e Hrun He. rewrite getFields_forEach in Hrun.
    destruct (forEach_provenance _ _ _ _ _ _ _ _ _ _ _ Hrun He)
      as [Hnil|(mf & h1 & Hin & Hs & Hsk & Hig & ->)]; [discriminate|].
    eexists mf, h1, _, _, _. split; [exact Hin|]. split; [exact Hs|]. split.
    { rewrite (layers_run _ _ k h1 : _ = _).
      rewrite (surjective_pairing (merged_config _ _ k h1)) at 1.
      rewrite Hig. reflexivity. }
    split; [reflexivity|].
    rewrite get_finalize_required, get_finalize_type.
    split; [reflexivity|]. split; [|split; [reflexivity|split]].
    + unfold Boolean, js_or.
      destruct (truthy (get _ "required")) eqn:E; [rewrite E|]; reflexivity.
    + intros Hty. unfold js_or. rewrite Hty. reflexivity.
    + intros Hty. unfold js_or. rewrite Hty. reflexivity.
  - intros k s Hnd Hin Hsk Hf Ha.
    destruct (getFields_no_override req model_ type_ h k (DString s)
                Hnd Hin Hsk)
      as (res & h' & Hrun & Hr);
      try (rewrite Hf; reflexivity); try (rewrite Ha; reflexivity).
    eexists res, h', _. split; [exact Hrun|]. split; [exact Hr|].
    split; reflexivity.
Qed.

Lemma required_and_type_witness :
  exists mf h1 h2 merged cfg,
    In ("createdAt", mf) (modelAttributes users_request users_model)
    /\ heap_step (default ∅ (config_fields users_request))
         (action_fields users_request (action_type (Some "edit")))
         (map fst (modelAttributes users_request users_model)) users_heap h1
    /\ (st <- global_layer (default ∅ (config_fields users_request))
                "createdAt"
                [("key", DString "createdAt");
                 ("title", DString "createdAt")] false ;;
        action_layer (action_fields users_request
                        (action_type (Some "edit"))) "createdAt"
          (fst st) (snd st)) h1
       = Ok ((merged, false), h2)
    /\ Entry (VData (DObject [("key", DString "createdAt");
                              ("title", DString "Created at");
                              ("required", DBool true);
                              ("type", DString "datetime")]))
         (DObject [("type", DString "datetime"); ("required", DBool true)])
       = Entry (VData (DObject cfg)) (model_field mf)
    /\ get cfg "required"
       = Boolean (js_or (get merged "required")
                    (data_get (model_field mf) "required"))
    /\ get cfg "required"
       = DBool (truthy (get merged "required")
                || truthy (data_get (model_field mf) "required"))
    /\ get cfg "type"
       = js_or (get merged "type") (data_get (model_field mf) "type")
    /\ (truthy (get merged "type") = true ->
        get cfg "type" = get merged "type")
    /\ (get merged "type" = DUndefined ->
        get cfg "type" = data_get (model_field mf) "type").
Proof.
  eapply (proj1 (required_and_type users_request users_model (Some "edit")
                   users_heap) _ _ "createdAt").
  - vm_compute. reflexivity.
  - reflexivity.
Defined.

(** ** The shape of an emitted configuration *)







(** ** What the resolver writes *)

Section Written.
Variable fieldsConfig : gmap string value.
Variable actionFields : gmap string value.
Variable type : string.
Variable identifierField : data.
Variable names_of : list string.
Variable l : loc.
Variable p : string.
Hypothesis key_or_title : p = "key" \/ p = "title".

(** The property [p] of the object at [l] holds the name of an attribute
    whose override the object is. *)
Abbreviation written s :=
  (exists k', In k' names_of /\ names fieldsConfig actionFields k' l
              /\ get (s !!! l) p = DString k').

Lemma written_step (ks : list string) (s s' : heap) :
  (forall k, In k ks -> In k names_of) ->
  heap_step fieldsConfig actionFields ks s s' -> written s -> written s'.
Proof.
  intros Hks Hs (k' & Hin & Hn & E).
  destruct (Hs l p) as [E'|(_ & _ & k'' & Hin'' & Hn'' & E'')].
  - exists k'. rewrite E'. auto.
  - exists k''. auto.
Qed.

Lemma layer_writes (k : string) (s : heap) :
  truthy (get (s !!! l) p) = false ->
  get (layer_heap (VRef l) k s !!! l) p = DString k.
Proof.
  intros Hf. simpl. rewrite lookup_total_insert_eq.
  destruct key_or_title as [-> | ->].
  - rewrite get_defaulted_key, Hf. reflexivity.
  - rewrite get_defaulted_title, Hf. reflexivity.
Qed.

Lemma field_heap_writes (k : string) (s : heap) :
  In k names_of ->
  skipped type identifierField k = false ->
  names fieldsConfig actionFields k l ->
  truthy (get (s !!! l) p) = false \/ written s ->
  written (field_heap fieldsConfig actionFields type identifierField k s).
Proof.
  intros Hin Hsk Hn Hs.
  assert (Hone : forall k', In k' [k] -> In k' names_of)
    by (intros k' [<-|[]]; exact Hin).
  destruct Hs as [Hf|Hw];
    [|eapply written_step; [exact Hone|apply field_heap_step|exact Hw]].
  unfold field_heap. rewrite Hsk.
  destruct Hn as [EG|EA].
  - eapply written_step;
      [exact Hone|apply layer_heap_step; right; reflexivity|].
    exists k. split; [exact Hin|]. split; [left; exact EG|].
    rewrite EG. apply layer_writes, Hf.
  - destruct (layer_heap_step fieldsConfig actionFields
                (index fieldsConfig k) k s (or_introl eq_refl) l p)
      as [E|(_ & _ & k' & Hk' & Hn' & E)].
    + exists k. split; [exact Hin|]. split; [right; exact EA|].
      rewrite EA. apply layer_writes. rewrite E. exact Hf.
    + eapply written_step;
        [exact Hone|apply layer_heap_step; right; reflexivity|].
      exists k'. auto.
Qed.

Lemma forEach_writes (attrs : props) (result result' : fields) (s s' : heap)
  (k : string) :
  (forall k', In k' (map fst attrs) -> In k' names_of) ->
  In k (map fst attrs) ->
  skipped type identifierField k = false ->
  names fieldsConfig actionFields k l ->
  truthy (get (s !!! l) p) = false \/ written s ->
  forEach fieldsConfig actionFields type identifierField attrs result s
  = Ok (result', s') ->
  written s'.
Proof.
  intros Hsub Hin Hsk Hn. revert result s Hsub Hin.
  induction attrs as [|[k0 mf0] rest IH]; intros result s Hsub Hin Hs;
    [destruct Hin|].
  rewrite forEach_cons. intros Hrun.
  assert (Hsub' : forall k', In k' (map fst rest) -> In k' names_of)
    by (intros k' H; apply Hsub; right; exact H).
  destruct Hin as [E|Hin].
  - simpl in E. subst k0.
    eapply written_step; [exact Hsub'|eapply forEach_heap_step, Hrun|].
    apply field_heap_writes; auto. apply Hsub. left. reflexivity.
  - apply (IH _ _ Hsub' Hin) with (2 := Hrun).
    destruct Hs as [Hf|Hw].
    + destruct (field_heap_step fieldsConfig actionFields type identifierField
                  k0 s l p) as [E|(_ & _ & k' & Hk' & Hn' & E)].
      * left. rewrite E. exact Hf.
      * right. exists k'. split; [|auto].
        apply Hsub. destruct Hk' as [<-|[]]. left. reflexivity.
    + right. eapply written_step; [|apply field_heap_step|exact Hw].
      intros k' [<-|[]]. apply Hsub. left. reflexivity.
Qed.

End Written.

(** C5, as the code has it: [getFields] writes to the caller's override
    objects only by the defaulting of [_normalizeFieldConfig].  In the store
    it returns, a property differs from before only if it is the [key] or the
    [title] of an object that is the override of one of the model attributes,
    was falsy, and is now the name of that attribute; every truthy property,
    every other property and every object that is no override of an attribute
    is as before.  And the defaulting does take place: in an object that is
    the override of an attribute that is not skipped, a falsy [key] or
    [title] is, after the call, the name of an attribute whose override the
    object is, that is the name of this attribute when the object is the
    override of no other.  (The [fields] maps are never assigned to, and
    [_.merge] writes to the working configuration only.) *)
Theorem overrides_only_defaulted (req : request) (model_ : option model_t)
  (type_ : option string) (h h' : heap) (res : fields) :
  getFields req model_ type_ h = Ok (res, h') ->
  forall l : loc,
    (forall p, p <> "key" -> p <> "title" ->
               get (h' !!! l) p = get (h !!! l) p)
    /\ (forall p, truthy (get (h !!! l) p) = true ->
                  get (h' !!! l) p = get (h !!! l) p)
    /\ (forall p, get (h' !!! l) p <> get (h !!! l) p ->
                  exists k,
                    In k (map fst (modelAttributes req model_))
                    /\ names (default ∅ (config_fields req))
                         (action_fields req (action_type type_)) k l
                    /\ get (h' !!! l) p = DString k)
    /\ ((forall k, In k (map fst (modelAttributes req model_)) ->
                   ~ names (default ∅ (config_fields req))
                       (action_fields req (action_type type_)) k l) ->
        h' !! l = h !! l)
    /\ (forall k p,
          In k (map fst (modelAttributes req model_)) ->
          skipped (action_type type_) (identifier_field req) k = false ->
          names (default ∅ (config_fields req))
            (action_fields req (action_type type_)) k l ->
          p = "key" \/ p = "title" ->
          truthy (get (h !!! l) p) = false ->
          (exists k',
             In k' (map fst (modelAttributes req model_))
             /\ names (default ∅ (config_fields req))
                  (action_fields req (action_type type_)) k' l
             /\ get (h' !!! l) p = DString k')
          /\ ((forall k',
                 In k' (map fst (modelAttributes req model_)) ->
                 names (default ∅ (config_fields req))
                   (action_fields req (action_type type_)) k' l -> k' = k) ->
              get (h' !!! l) p = DString k)).
Proof.
  intros Hrun l. rewrite getFields_forEach in Hrun.
  pose proof (forEach_heap_step _ _ _ _ _ _ _ _ _ Hrun) as Hs.
  split; [|split; [|split; [|split]]];
    [| | | |
     intros k p Hin Hsk Hn Hp Hf;
     assert (Hw : exists k',
                In k' (map fst (modelAttributes req model_))
                /\ names (default ∅ (config_fields req))
                     (action_fields req (action_type type_)) k' l
                /\ get (h' !!! l) p = DString k')
       by (eapply (forEach_writes _ _ _ _ _ l p Hp); eauto);
     split; [exact Hw|];
     intros Huniq; destruct Hw as (k' & Hin' & Hn' & E);
     rewrite E, (Huniq k' Hin' Hn'); reflexivity].
  - intros p Hk Ht. eapply heap_step_other; eassumption.
  - intros p Hp. eapply heap_step_truthy; eassumption.
  - intros p Hne. destruct (Hs l p) as [E|(_ & _ & k & Hk & Hn & Ek)];
      [contradiction | eauto].
  - intros Hn. eapply forEach_frame; eassumption.
Qed.

Lemma overrides_only_defaulted_witness :
  (forall p, p <> "key" -> p <> "title" ->
             get ((<[0 := [("title", DString "User bio");
                           ("editor", DBool true);
                           ("key", DString "bio")]]> users_heap) !!! 0) p
             = get (users_heap !!! 0) p)
  /\ (forall p, truthy (get (users_heap !!! 0) p) = true ->
                get ((<[0 := [("title", DString "User bio");
                              ("editor", DBool true);
                              ("key", DString "bio")]]> users_heap) !!! 0) p
                = get (users_heap !!! 0) p)
  /\ (forall p, get ((<[0 := [("title", DString "User bio");
                              ("editor", DBool true);
                              ("key", DString "bio")]]> users_heap) !!! 0) p
                <> get (users_heap !!! 0) p ->
                exists k,
                  In k (map fst (modelAttributes users_request users_model))
                  /\ names (default ∅ (config_fields users_request))
                       (action_fields users_request (action_type None)) k 0
                  /\ get ((<[0 := [("title", DString "User bio");
                                   ("editor", DBool true);
                                   ("key", DString "bio")]]> users_heap)
                          !!! 0) p = DString k)
  /\ ((forall k, In k (map fst (modelAttributes users_request users_model)) ->
                 ~ names (default ∅ (config_fields users_request))
                     (action_fields users_request (action_type None)) k 0) ->
      (<[0 := [("title", DString "User bio"); ("editor", DBool true);
               ("key", DString "bio")]]> users_heap) !! 0
      = users_heap !! 0)
  /\ (forall k p,
        In k (map fst (modelAttributes users_request users_model)) ->
        skipped (action_type None) (identifier_field users_request) k = false ->
        names (default ∅ (config_fields users_request))
          (action_fields users_request (action_type None)) k 0 ->
        p = "key" \/ p = "title" ->
        truthy (get (users_heap !!! 0) p) = false ->
        (exists k',
           In k' (map fst (modelAttributes users_request users_model))
           /\ names (default ∅ (config_fields users_request))
                (action_fields users_request (action_type None)) k' 0
           /\ get ((<[0 := [("title", DString "User bio");
                            ("editor", DBool true);
                            ("key", DString "bio")]]> users_heap) !!! 0) p
              = DString k')
        /\ ((forall k',
               In k' (map fst (modelAttributes users_request users_model)) ->
               names (default ∅ (config_fields users_request))
                 (action_fields users_request (action_type None)) k' 0 ->
               k' = k) ->
            get ((<[0 := [("title", DString "User bio");
                          ("editor", DBool true);
                          ("key", DString "bio")]]> users_heap) !!! 0) p
            = DString k)).
Proof.
  refine (overrides_only_defaulted users_request users_model None users_heap
            _ _ _ 0).
  vm_compute. reflexivity.
Defined.

(** C5 as worded fails: listing the users writes the key [bio] into the
    global override object of [bio], at the address 0, though the action
    layer hides the field. *)
Lemma override_object_written :
  index (default ∅ (config_fields users_request)) "bio" = VRef 0
  /\ get (users_heap !!! 0) "key" = DUndefined
  /\ exists res h',
       getFields users_request users_model None users_heap = Ok (res, h')
       /\ result_get res "bio" = None
       /\ get (h' !!! 0) "key" = DString "bio"
       /\ h' <> users_heap.
Proof.
  split; [reflexivity|]. split; [reflexivity|].
  eexists _, _. split; [vm_compute; reflexivity|].
  split; [reflexivity|]. split; [reflexivity|].
  intros E. apply (f_equal (fun m : heap => get (m !!! 0) "key")) in E.
  discriminate E.
Qed.

(** * Further properties of the resolver *)

(** ** Which attributes have an entry, and in which order *)

Lemma snd_merged_config (fieldsConfig actionFields : gmap string value)
  (k : string) (h : heap) :
  snd (merged_config fieldsConfig actionFields k h)
  = negb (visible fieldsConfig actionFields k).
Proof.
  unfold merged_config, layer_config, visible.
  destruct (is_false (index actionFields k)); [reflexivity|].
  destruct (value_truthy (index actionFields k)); [reflexivity|].
  destruct (is_false (index fieldsConfig k)); [reflexivity|].
  destruct (value_truthy (index fieldsConfig k)); reflexivity.
Qed.

Lemma keys_result_set (result : fields) (k : string) (e : entry) :
  map fst (result_set result k e)
  = if existsb (String.eqb k) (map fst result) then map fst result
    else (map fst result ++ [k])%list.
Proof.
  induction result as [|[k0 e0] result IH]; simpl; [reflexivity|].
  destruct (String.eqb_spec k k0) as [->|Hne]; simpl; [reflexivity|].
  rewrite IH. destruct (existsb (String.eqb k) (map fst result)); reflexivity.
Qed.

Lemma existsb_eqb_In (k : string) (ks : list string) :
  existsb (String.eqb k) ks = true <-> In k ks.
Proof.
  rewrite existsb_exists. split.
  - intros (x & Hx & E). apply String.eqb_eq in E. congruence.
  - intros H. exists k. split; [exact H | apply String.eqb_refl].
Qed.

Lemma result_get_keys (result : fields) (k : string) :
  is_Some (result_get result k) <-> In k (map fst result).
Proof.
  induction result as [|[k0 e0] result IH]; simpl.
  - split; [intros [x Hx]; discriminate | intros []].
  - destruct (String.eqb_spec k k0) as [->|Hne].
    + split; [auto | eauto].
    + rewrite IH. split; [auto | intros [E|H]; [congruence | exact H]].
Qed.

Section Keys.
Variable fieldsConfig : gmap string value.
Variable actionFields : gmap string value.
Variable type : string.
Variable identifierField : data.

Abbreviation shown_ := (shown fieldsConfig actionFields type identifierField).

Lemma keys_field_result (result : fields) (mf : data) (k : string) (h : heap) :
  map fst (field_result fieldsConfig actionFields type identifierField
             result mf k h)
  = if shown_ k && negb (existsb (String.eqb k) (map fst result))
    then (map fst result ++ [k])%list else map fst result.
Proof.
  unfold field_result, shown. rewrite snd_merged_config.
  destruct (skipped type identifierField k); [reflexivity|].
  destruct (visible fieldsConfig actionFields k); [|reflexivity]. simpl.
  rewrite keys_result_set.
  destruct (existsb (String.eqb k) (map fst result)); reflexivity.
Qed.

Lemma forEach_keys_In (attrs : props) (result result' : fields) (h h' : heap)
  (k : string) :
  forEach fieldsConfig actionFields type identifierField attrs result h
  = Ok (result', h') ->
  In k (map fst result')
  <-> In k (map fst result) \/ (In k (map fst attrs) /\ shown_ k = true).
Proof.
  revert result h. induction attrs as [|[k0 mf0] rest IH]; intros result h.
  - intros [= <- _]. simpl. tauto.
  - rewrite forEach_cons. intros Hrun. rewrite (IH _ _ Hrun).
    rewrite keys_field_result. simpl.
    destruct (shown_ k0) eqn:Hsh; simpl.
    + destruct (existsb (String.eqb k0) (map fst result)) eqn:Hex; simpl.
      * apply existsb_eqb_In in Hex.
        split; [tauto|].
        intros [H|[[<-|H] Hk]]; auto.
      * rewrite in_app_iff. simpl.
        split; [intros [[H|[<-|[]]]|[H Hk]]; auto|].
        intros [H|[[<-|H] Hk]]; auto.
    + split; [tauto|]. intros [H|[[<-|H] Hk]]; auto. congruence.
Qed.

Lemma forEach_keys (attrs : props) (result result' : fields) (h h' : heap) :
  NoDup (map fst attrs) ->
  (forall k, In k (map fst attrs) -> ~ In k (map fst result)) ->
  forEach fieldsConfig actionFields type identifierField attrs result h
  = Ok (result', h') ->
  map fst result' = (map fst result ++ List.filter shown_ (map fst attrs))%list.
Proof.
  revert result h. induction attrs as [|[k0 mf0] rest IH];
    intros result h Hnd Hfresh.
  - intros [= <- _]. simpl. rewrite app_nil_r. reflexivity.
  - rewrite forEach_cons. intros Hrun. simpl in Hnd.
    apply NoDup_cons in Hnd as [Hk0 Hnd].
    assert (Hex : existsb (String.eqb k0) (map fst result) = false).
    { destruct (existsb _ _) eqn:E; [|reflexivity].
      apply existsb_eqb_In in E. exfalso.
      apply (Hfresh k0); [left; reflexivity | exact E]. }
    assert (Hfresh' : forall k, In k (map fst rest) ->
              ~ In k (map fst (field_result fieldsConfig actionFields type
                                 identifierField result mf0 k0 h))).
    { intros k Hk. rewrite keys_field_result, Hex, andb_true_r.
      assert (Hr : ~ In k (map fst result))
        by (apply Hfresh; right; exact Hk).
      destruct (shown_ k0); [|exact Hr].
      rewrite in_app_iff. simpl. intros [H|[<-|[]]]; [auto|].
      apply Hk0, list_elem_of_In, Hk. }
    rewrite (IH _ _ Hnd Hfresh' Hrun).
    rewrite keys_field_result, Hex, andb_true_r. simpl.
    destruct (shown_ k0); [rewrite <- app_assoc|]; reflexivity.
Qed.

End Keys.

(** X2: an attribute name that is not the name of a member of
    [Object.prototype] has an entry in the result of [getFields] exactly when
    it names a field attribute of the model, is not the identifier under
    'add', and the two layers let it show: the action override is truthy, or
    it is not [false] (absent or falsy) and the global override is not
    [false].  (For a name such as 'constructor' the read of an absent override
    finds the inherited member, which is truthy.) *)
Theorem entry_iff_visible (req : request) (model_ : option model_t)
  (type_ : option string) (h h' : heap) (res : fields) (k : string) :
  ~ In k object_prototype_names ->
  getFields req model_ type_ h = Ok (res, h') ->
  is_Some (result_get res k)
  <-> In k (map fst (modelAttributes req model_))
      /\ skipped (action_type type_) (identifier_field req) k = false
      /\ visible (default ∅ (config_fields req))
           (action_fields req (action_type type_)) k = true.
Proof.
  intros _ Hrun. rewrite getFields_forEach in Hrun.
  rewrite result_get_keys, (forEach_keys_In _ _ _ _ _ _ _ _ _ _ Hrun).
  unfold shown. simpl. rewrite andb_true_iff, negb_true_iff. tauto.
Qed.

Lemma entry_iff_visible_witness :
  exists res h',
    getFields users_request users_model None users_heap = Ok (res, h')
    /\ (is_Some (result_get res "bio")
        <-> In "bio" (map fst (modelAttributes users_request users_model))
            /\ skipped (action_type None) (identifier_field users_request)
                 "bio" = false
            /\ visible (default ∅ (config_fields users_request))
                 (action_fields users_request (action_type None)) "bio"
               = true).
Proof.
  eexists _, _. split; [vm_compute; reflexivity|].
  eapply (entry_iff_visible users_request users_model None users_heap).
  - simpl. intuition discriminate.
  - vm_compute. reflexivity.
Defined.

(** X3: the entries of the result of [getFields] come in the order of the
    model attributes: the names in the result are the names of the field
    attributes of the model, in their order, without those that are skipped
    or hidden.  (The names of the attributes are distinct, as the property
    names of an object are, and none is the name of a member of
    [Object.prototype], for which the read of an absent override finds the
    inherited member.) *)
Theorem result_in_model_order (req : request) (model_ : option model_t)
  (type_ : option string) (h h' : heap) (res : fields) :
  NoDup (map fst (modelAttributes req model_)) ->
  (forall k, In k (map fst (modelAttributes req model_)) ->
             ~ In k object_prototype_names) ->
  getFields req model_ type_ h = Ok (res, h') ->
  map fst res
  = List.filter
      (shown (default ∅ (config_fields req))
         (action_fields req (action_type type_)) (action_type type_)
         (identifier_field req))
      (map fst (modelAttributes req model_)).
Proof.
  intros Hnd _ Hrun. rewrite getFields_forEach in Hrun.
  apply forEach_keys in Hrun; [exact Hrun | exact Hnd |].
  intros k _ [].
Qed.

Lemma result_in_model_order_witness :
  exists res h',
    getFields users_request users_model (Some "edit") users_heap = Ok (res, h')
    /\ map fst res
       = List.filter
           (shown (default ∅ (config_fields users_request))
              (action_fields users_request (action_type (Some "edit")))
              (action_type (Some "edit")) (identifier_field users_request))
           (map fst (modelAttributes users_request users_model)).
Proof.
  eexists _, _. split; [vm_compute; reflexivity|].
  eapply (result_in_model_order users_request users_model (Some "edit")
            users_heap).
  - distinct_names.
  - vm_compute. intros k [<-|[<-|[<-|[<-|[]]]]]; intuition discriminate.
  - vm_compute. reflexivity.
Defined.

(** X4: every entry of the result of [getFields] belongs to an attribute of
    the model that is a string or a plain object and has neither a truthy
    [collection] nor a truthy [model]: an association is never listed.  The
    [model] of the entry is that attribute, a short type [s] being written out
    as [{type: s}]. *)
Theorem only_fields_listed (req : request) (model_ : option model_t)
  (type_ : option string) (h h' : heap) (res : fields) (attributes : props)
  (k : string) (e : entry) :
  model_of req model_ = Some (Model (Some attributes)) ->
  getFields req model_ type_ h = Ok (res, h') ->
  result_get res k = Some e ->
  exists mf,
    In (k, mf) attributes
    /\ (isPlainObject (VData mf) = true \/ isString (VData mf) = true)
    /\ truthy (data_get mf "collection") = false
    /\ truthy (data_get mf "model") = false
    /\ model e = (match mf with
                  | DString s => DObject [("type", DString s)]
                  | _ => mf
                  end).
Proof.
  intros Hm Hrun He. rewrite getFields_forEach in Hrun.
  destruct (forEach_provenance _ _ _ _ _ _ _ _ _ _ _ Hrun He)
    as [Hnil|(mf & h1 & Hin & _ & _ & _ & ->)]; [discriminate|].
  unfold modelAttributes in Hin. rewrite Hm in Hin.
  apply filter_In in Hin as [Hin Hf]. simpl in Hf.
  unfold is_field in Hf.
  apply andb_true_iff in Hf as [Hf Hmod].
  apply andb_true_iff in Hf as [Hkind Hcol].
  exists mf. split; [exact Hin|].
  split; [apply orb_true_iff, Hkind|].
  split; [apply negb_true_iff, Hcol|].
  split; [apply negb_true_iff, Hmod|].
  simpl. destruct mf; reflexivity.
Qed.

Lemma only_fields_listed_witness :
  exists mf,
    In ("email", mf) users_attributes
    /\ (isPlainObject (VData mf) = true \/ isString (VData mf) = true)
    /\ truthy (data_get mf "collection") = false
    /\ truthy (data_get mf "model") = false
    /\ model (Entry (VData (DObject [("key", DString "email");
                                     ("title", DString "User Email");
                                     ("required", DBool false);
                                     ("type", DString "string")]))
                (DObject [("type", DString "string")]))
       = (match mf with
          | DString s => DObject [("type", DString s)]
          | _ => mf
          end).
Proof.
  eapply (only_fields_listed users_request users_model None users_heap _ _
            users_attributes "email").
  - reflexivity.
  - vm_compute. reflexivity.
  - reflexivity.
Defined.

(** ** Normalising twice *)

Lemma defaulted_settled (ps : props) (key : data) :
  settled ps = true -> defaulted ps key = ps.
Proof.
  unfold settled, defaulted. intros H.
  apply andb_true_iff in H as [Hk Ht]. rewrite Hk, Ht. reflexivity.
Qed.

Lemma settled_defaulted (ps : props) (key : data) :
  truthy key = true -> settled (defaulted ps key) = true.
Proof.
  intros Hkey. unfold settled.
  rewrite get_defaulted_key, get_defaulted_title.
  destruct (truthy (get ps "key")) eqn:Hk;
    destruct (truthy (get ps "title")) eqn:Ht;
    rewrite ?Hk, ?Ht, ?Hkey; reflexivity.
Qed.

Lemma truthy_defined (d : data) : truthy d = true -> d <> DUndefined.
Proof. intros H ->. discriminate. Qed.

(** X5: once [_normalizeFieldConfig] has normalised a plain object under a
    truthy key, normalising it again, under any key, returns it as it is and
    writes nothing: the first key and title stay. *)
Theorem normalize_settles (key key' : data) (h : heap) :
  truthy key = true -> key' <> DUndefined ->
  (forall l : loc,
     exists h1,
       _normalizeFieldConfig (VRef l) key h = Ok (VRef l, h1)
       /\ _normalizeFieldConfig (VRef l) key' h1 = Ok (VRef l, h1))
  /\ (forall o : props,
        exists o1,
          _normalizeFieldConfig (VData (DObject o)) key h
          = Ok (VData (DObject o1), h)
          /\ _normalizeFieldConfig (VData (DObject o1)) key' h
             = Ok (VData (DObject o1), h)).
Proof.
  intros Hkey Hkey'. pose proof (truthy_defined key Hkey) as Hdef. split.
  - intros l. eexists. split; [apply normalize_shared, Hdef|].
    rewrite normalize_shared by assumption.
    rewrite lookup_total_insert_eq, insert_insert_eq.
    rewrite defaulted_settled by (apply settled_defaulted, Hkey).
    reflexivity.
  - intros o. eexists. split; [apply normalize_literal, Hdef|].
    rewrite normalize_literal by assumption.
    rewrite defaulted_settled by (apply settled_defaulted, Hkey).
    reflexivity.
Qed.

Lemma normalize_settles_witness :
  exists h1,
    _normalizeFieldConfig (VRef 0) (DString "bio") users_heap = Ok (VRef 0, h1)
    /\ _normalizeFieldConfig (VRef 0) (DString "email") h1 = Ok (VRef 0, h1).
Proof.
  apply (proj1 (normalize_settles (DString "bio") (DString "email") users_heap
                  ltac:(reflexivity) ltac:(discriminate))).
Defined.

(** X6: whenever [_normalizeFieldConfig] returns, it returns [false] or a
    plain object, and it returns [false] exactly for the override [false] and
    for the values that are neither a boolean, nor a string, nor a plain
    object; an object it returns has a [key] and a [title] that are truthy or
    the key it was called with. *)
Theorem normalize_result (config : value) (key : data) (h h' : heap)
  (r : value) :
  _normalizeFieldConfig config key h = Ok (r, h') ->
  (r = false_ \/ isPlainObject r = true)
  /\ (r = false_
      <-> is_false config = true
          \/ (isBoolean config = false /\ isString config = false
              /\ isPlainObject config = false))
  /\ (isPlainObject r = true ->
      forall p, p = "key" \/ p = "title" ->
        exists d, prop_get r p h' = Ok (d, h')
                  /\ (truthy d = true \/ d = key
                      \/ (p = "title" /\ isString config = true
                          /\ VData d = config))).
Proof.
  intros Hrun.
  assert (Hkey : key <> DUndefined).
  { intros ->. unfold _normalizeFieldConfig in Hrun. simpl in Hrun.
    rewrite orb_true_r in Hrun. discriminate. }
  assert (Hobj : forall ps,
             (truthy (get (defaulted ps key) "key") = true
              \/ get (defaulted ps key) "key" = key)
             /\ (truthy (get (defaulted ps key) "title") = true
                 \/ get (defaulted ps key) "title" = key)).
  { intros ps. rewrite get_defaulted_key, get_defaulted_title.
    destruct (truthy (get ps "key")) eqn:Hk;
      destruct (truthy (get ps "title")) eqn:Ht; auto. }
  assert (Hu : isUndefined (VData key) = false)
    by (destruct key; congruence || reflexivity).
  assert (Hfalse : config <> false_ -> isBoolean config = false ->
                   isString config = false -> isPlainObject config = false ->
                   r = false_ ->
                   (r = false_ \/ isPlainObject r = true)
                   /\ (r = false_
                       <-> is_false config = true
                           \/ (isBoolean config = false
                               /\ isString config = false
                               /\ isPlainObject config = false))
                   /\ (isPlainObject r = true ->
                       forall p, p = "key" \/ p = "title" ->
                         exists d, prop_get r p h' = Ok (d, h')
                                   /\ (truthy d = true \/ d = key
                                       \/ (p = "title"
                                           /\ isString config = true
                                           /\ VData d = config)))).
  { intros _ Hb Hs Hp ->. split; [left; reflexivity|].
    split; [split; [auto | reflexivity] | discriminate]. }
  assert (Hsome : is_false config = false ->
                  (isBoolean config = true \/ isString config = true
                   \/ isPlainObject config = true) ->
                  r <> false_ -> isPlainObject r = true ->
                  (forall p, p = "key" \/ p = "title" ->
                     exists d, prop_get r p h' = Ok (d, h')
                               /\ (truthy d = true \/ d = key
                                   \/ (p = "title" /\ isString config = true
                                       /\ VData d = config))) ->
                  (r = false_ \/ isPlainObject r = true)
                  /\ (r = false_
                      <-> is_false config = true
                          \/ (isBoolean config = false
                              /\ isString config = false
                              /\ isPlainObject config = false))
                  /\ (isPlainObject r = true ->
                      forall p, p = "key" \/ p = "title" ->
                        exists d, prop_get r p h' = Ok (d, h')
                                  /\ (truthy d = true \/ d = key
                                      \/ (p = "title"
                                          /\ isString config = true
                                          /\ VData d = config)))).
  { intros Hf Hkind Hr Hp Hprops. split; [right; exact Hp|].
    split; [|intros _; exact Hprops].
    split; [contradiction|].
    intros [H|(Hb & Hs & Ho)]; [congruence|].
    destruct Hkind as [H|[H|H]]; congruence. }
  destruct config as [d|l].
  - destruct d as [| |b|x|s|ps|vs|n];
      try (unfold _normalizeFieldConfig in Hrun;
           rewrite Hu, orb_false_r in Hrun; simpl in Hrun;
           injection Hrun as <- <-; apply Hfalse;
           (discriminate || reflexivity)).
    + discriminate.
    + unfold _normalizeFieldConfig in Hrun.
      rewrite Hu, orb_false_r in Hrun. simpl in Hrun.
      destruct b; injection Hrun as <- <-.
      * apply Hsome; auto; try discriminate.
        intros p [-> | ->]; eexists; (split; [reflexivity|]); auto.
      * split; [left; reflexivity|].
        split; [split; [auto | reflexivity] | discriminate].
    + unfold _normalizeFieldConfig in Hrun.
      rewrite Hu, orb_false_r in Hrun. simpl in Hrun.
      injection Hrun as <- <-. apply Hsome; auto; try discriminate.
      intros p [-> | ->]; eexists; (split; [reflexivity|]); auto.
    + rewrite normalize_literal in Hrun by assumption.
      injection Hrun as <- <-. apply Hsome; auto; try discriminate.
      destruct (Hobj ps) as [H1 H2].
      intros p [-> | ->]; eexists; (split; [reflexivity|]); simpl; tauto.
  - rewrite normalize_shared in Hrun by assumption.
    injection Hrun as <- <-. apply Hsome; auto; try discriminate.
    destruct (Hobj (h !!! l)) as [H1 H2].
    intros p [-> | ->]; eexists; (split; [reflexivity|]); simpl;
      rewrite lookup_total_insert_eq; tauto.
Qed.

Lemma normalize_result_witness :
  (VData (DObject [("key", DString "email"); ("title", DString "")]) = false_
   \/ isPlainObject
        (VData (DObject [("key", DString "email"); ("title", DString "")]))
      = true)
  /\ (VData (DObject [("key", DString "email"); ("title", DString "")]) = false_
      <-> is_false (VData (DString "")) = true
          \/ (isBoolean (VData (DString "")) = false
              /\ isString (VData (DString "")) = false
              /\ isPlainObject (VData (DString "")) = false))
  /\ (isPlainObject
        (VData (DObject [("key", DString "email"); ("title", DString "")]))
      = true ->
      forall p, p = "key" \/ p = "title" ->
        exists d,
          prop_get
            (VData (DObject [("key", DString "email"); ("title", DString "")]))
            p users_heap = Ok (d, users_heap)
          /\ (truthy d = true \/ d = DString "email"
              \/ (p = "title" /\ isString (VData (DString "")) = true
                  /\ VData d = VData (DString "")))).
Proof.
  apply (normalize_result (VData (DString "")) (DString "email") users_heap).
  reflexivity.
Defined.

(** ** Resolving twice *)

Section Replay.
Variable fieldsConfig : gmap string value.
Variable actionFields : gmap string value.
Variable type : string.
Variable identifierField : data.

Lemma layer_heap_keeps (v : value) (k : string) (s : heap) (l : loc)
  (d : props) :
  s !! l = Some d -> settled d = true -> layer_heap v k s !! l = Some d.
Proof.
  intros Hl Hd. unfold layer_heap. destruct v as [d0|l0]; [exact Hl|].
  destruct (decide (l0 = l)) as [->|Hne].
  - rewrite lookup_insert_eq, (lookup_total_correct _ _ _ Hl).
    rewrite defaulted_settled by exact Hd. reflexivity.
  - rewrite lookup_insert_ne by exact Hne. exact Hl.
Qed.

Lemma forEach_keeps_settled (attrs : props) (result result' : fields)
  (s s' : heap) (l : loc) (d : props) :
  s !! l = Some d -> settled d = true ->
  forEach fieldsConfig actionFields type identifierField attrs result s
  = Ok (result', s') ->
  s' !! l = Some d.
Proof.
  intros Hl Hd. revert result s Hl.
  induction attrs as [|[k mf] rest IH]; intros result s Hl.
  - intros [= _ <-]. exact Hl.
  - rewrite forEach_cons. apply IH. unfold field_heap.
    destruct (skipped type identifierField k); [exact Hl|].
    apply layer_heap_keeps; [|exact Hd].
    apply layer_heap_keeps; assumption.
Qed.

(** A layer whose override, if shared, is already as the layer would leave
    it, in a store [t]: nothing is written, and the layer reads what it read
    in the store [s] where it was normalised. *)
Lemma layer_replay (reset : bool) (v : value) (k : string) (s t : heap)
  (st : props * bool) :
  k <> "" ->
  (forall l, v = VRef l -> t !! l = Some (defaulted (s !!! l) (DString k))) ->
  layer_heap v k t = t
  /\ layer_config reset v k t st = layer_config reset v k s st.
Proof.
  intros Hk Ht. unfold layer_heap, layer_config.
  destruct v as [d|l]; [split; reflexivity|].
  specialize (Ht l eq_refl).
  assert (Hs : settled (defaulted (s !!! l) (DString k)) = true).
  { apply settled_defaulted. simpl.
    destruct (String.eqb_spec k ""); [contradiction | reflexivity]. }
  simpl. rewrite (lookup_total_correct _ _ _ Ht).
  rewrite (defaulted_settled _ _ Hs). split; [|reflexivity].
  apply insert_id, Ht.
Qed.

Lemma forEach_replay (attrs : props) :
  (forall k, In k (map fst attrs) -> k <> "") ->
  forall (result result' : fields) (s s' : heap),
    forEach fieldsConfig actionFields type identifierField attrs result s
    = Ok (result', s') ->
    forEach fieldsConfig actionFields type identifierField attrs result s'
    = Ok (result', s').
Proof.
  induction attrs as [|[k mf] rest IH]; intros Hne result result' s s'.
  - intros [= <- <-]. reflexivity.
  - rewrite !forEach_cons. intros Hrun.
    assert (Hk : k <> "") by (apply Hne; left; reflexivity).
    assert (Hsettled : forall ps, settled (defaulted ps (DString k)) = true).
    { intros ps. apply settled_defaulted. simpl.
      destruct (String.eqb_spec k ""); [contradiction | reflexivity]. }
    assert (E : field_heap fieldsConfig actionFields type identifierField k s'
                = s'
                /\ field_result fieldsConfig actionFields type identifierField
                     result mf k s'
                   = field_result fieldsConfig actionFields type
                       identifierField result mf k s).
    { unfold field_heap, field_result in *.
      destruct (skipped type identifierField k); [split; reflexivity|].
      set (s2 := layer_heap (index fieldsConfig k) k s) in *.
      assert (HG : forall l, index fieldsConfig k = VRef l ->
                             s' !! l = Some (defaulted (s !!! l) (DString k))).
      { intros l El.
        eapply forEach_keeps_settled; [|apply Hsettled|exact Hrun].
        apply layer_heap_keeps; [|apply Hsettled].
        unfold s2, layer_heap. rewrite El. apply lookup_insert_eq. }
      assert (HA : forall l, index actionFields k = VRef l ->
                             s' !! l = Some (defaulted (s2 !!! l) (DString k))).
      { intros l El.
        eapply forEach_keeps_settled; [|apply Hsettled|exact Hrun].
        unfold layer_heap at 1. rewrite El. apply lookup_insert_eq. }
      destruct (layer_replay false _ k s s' (initial_config k, false) Hk HG)
        as [EG1 EG2].
      unfold merged_config. rewrite EG1, EG2.
      destruct (layer_replay true _ k s2 s'
                  (layer_config false (index fieldsConfig k) k s
                     (initial_config k, false)) Hk HA) as [EA1 EA2].
      fold s2. rewrite EA1, EA2. split; reflexivity. }
    destruct E as [-> ->].
    apply (IH (fun k' H => Hne k' (or_intror H)) _ _ _ _ Hrun).
Qed.

End Replay.

(** X7: resolving again changes nothing.  When no field attribute has the
    empty name, [getFields] called in the store that a first call left
    returns the same result as that first call and leaves the store as it is:
    what the first call wrote into the override objects is all there is to
    write. *)
Theorem getFields_settles (req : request) (model_ : option model_t)
  (type_ : option string) (h h' : heap) (res : fields) :
  (forall k, In k (map fst (modelAttributes req model_)) -> k <> "") ->
  getFields req model_ type_ h = Ok (res, h') ->
  getFields req model_ type_ h' = Ok (res, h').
Proof.
  intros Hne. rewrite !getFields_forEach. apply forEach_replay, Hne.
Qed.

Lemma getFields_settles_witness :
  exists res h',
    getFields users_request users_model (Some "edit") users_heap = Ok (res, h')
    /\ getFields users_request users_model (Some "edit") h' = Ok (res, h').
Proof.
  eexists _, _.
  assert (H : forall res h',
             getFields users_request users_model (Some "edit") users_heap
             = Ok (res, h') ->
             getFields users_request users_model (Some "edit") users_heap
             = Ok (res, h')
             /\ getFields users_request users_model (Some "edit") h'
                = Ok (res, h')).
  { intros res h' Hrun. split; [exact Hrun|].
    apply (getFields_settles users_request users_model (Some "edit")
             users_heap); [|exact Hrun].
    vm_compute. intros k [<-|[<-|[<-|[<-|[]]]]]; discriminate. }
  apply H. vm_compute. reflexivity.
Defined.

(** ** The notations at work *)

(** X8: a non-empty string at the global layer is the title of the field
    under every action whose own override is absent or falsy without being
    [false]: the entry is
    [{key, title: s, required: Boolean(model.required), type: model.type}]. *)
Theorem global_string_is_title (req : request) (model_ : option model_t)
  (type_ : option string) (h : heap) (k : string) (mf : data) (s : string) :
  NoDup (map fst (modelAttributes req model_)) ->
  In (k, mf) (modelAttributes req model_) ->
  skipped (action_type type_) (identifier_field req) k = false ->
  index (default ∅ (config_fields req)) k = VData (DString s) -> s <> "" ->
  value_truthy (index (action_fields req (action_type type_)) k) = false ->
  is_false (index (action_fields req (action_type type_)) k) = false ->
  exists res h',
    getFields req model_ type_ h = Ok (res, h')
    /\ result_get res k
       = Some (Entry
                 (VData (DObject
                    [("key", DString k); ("title", DString s);
                     ("required",
                      Boolean (data_get (model_field mf) "required"));
                     ("type", data_get (model_field mf) "type")]))
                 (model_field mf)).
Proof.
  intros Hnd Hin Hsk Hf Hs HtA HfA.
  assert (Hts : negb (String.eqb s "") = true)
    by (destruct (String.eqb_spec s ""); [contradiction | reflexivity]).
  assert (Hm : forall h1,
             merged_config (default ∅ (config_fields req))
               (action_fields req (action_type type_)) k h1
             = ([("key", DString k); ("title", DString s)], false)).
  { intros h1. unfold merged_config. rewrite Hf.
    destruct (layer_passed_over true _ k (layer_heap (VData (DString s)) k h1)
                (layer_config false (VData (DString s)) k h1
                   (initial_config k, false)) HtA HfA) as [-> _].
    unfold layer_config.
    cbn [is_false value_truthy truthy layer_source fst snd].
    rewrite Hts. reflexivity. }
  destruct (getFields_emitted req model_ type_ h k mf Hnd Hin Hsk)
    as (res & h' & h1 & Hrun & _ & Hr).
  { intros h1 _. rewrite Hm. reflexivity. }
  rewrite Hm in Hr. cbn [fst] in Hr.
  exists res, h'. split; [exact Hrun|]. rewrite Hr. do 3 f_equal.
  unfold finalize, defaulted. cbn -[negb].
  destruct (negb (String.eqb k "")); cbn -[negb]; rewrite Hts; reflexivity.
Qed.

Lemma global_string_is_title_witness :
  exists res h',
    getFields users_request users_model None users_heap = Ok (res, h')
    /\ result_get res "email"
       = Some (Entry
                 (VData (DObject
                    [("key", DString "email"); ("title", DString "User Email");
                     ("required",
                      Boolean (data_get (model_field (DString "string"))
                                 "required"));
                     ("type", data_get (model_field (DString "string"))
                                "type")]))
                 (model_field (DString "string"))).
Proof.
  apply (global_string_is_title users_request users_model None users_heap
           "email" (DString "string") "User Email").
  - distinct_names.
  - vm_compute. auto.
  - reflexivity.
  - reflexivity.
  - discriminate.
  - reflexivity.
  - reflexivity.
Defined.

(** X9: the boolean [true] at the action layer shows the field under its own
    name: key and title of the entry are the attribute name, whatever the
    global layer holds for it, a title included. *)
Theorem action_true_resets_title (req : request) (model_ : option model_t)
  (type_ : option string) (h : heap) (k : string) (mf : data) :
  NoDup (map fst (modelAttributes req model_)) ->
  In (k, mf) (modelAttributes req model_) ->
  skipped (action_type type_) (identifier_field req) k = false ->
  index (action_fields req (action_type type_)) k = VData (DBool true) ->
  exists res h' cfg,
    getFields req model_ type_ h = Ok (res, h')
    /\ result_get res k = Some (Entry (VData (DObject cfg)) (model_field mf))
    /\ get cfg "key" = DString k
    /\ get cfg "title" = DString k.
Proof.
  intros Hnd Hin Hsk Ha.
  assert (Hm : forall h1, exists fld,
             merged_config (default ∅ (config_fields req))
               (action_fields req (action_type type_)) k h1
             = (merge_props fld (initial_config k), false)).
  { intros h1. unfold merged_config. rewrite Ha. eexists. reflexivity. }
  destruct (getFields_emitted req model_ type_ h k mf Hnd Hin Hsk)
    as (res & h' & h1 & Hrun & _ & Hr).
  { intros h1 _. destruct (Hm h1) as [fld ->]. reflexivity. }
  destruct (Hm h1) as [fld E]. rewrite E in Hr. cbn [fst] in Hr.
  eexists res, h', _. split; [exact Hrun|]. split; [exact Hr|].
  rewrite get_finalize_key, get_finalize_title, !get_merge_props. simpl.
  destruct (negb (String.eqb k "")); split; reflexivity.
Qed.

Lemma action_true_resets_title_witness :
  exists res h' cfg,
    getFields
      (Request (config_fields users_request) None
         (fun _ => {[ "email" := VData (DBool true) ]}) (DString "id"))
      users_model (Some "edit") users_heap = Ok (res, h')
    /\ result_get res "email"
       = Some (Entry (VData (DObject cfg)) (model_field (DString "string")))
    /\ get cfg "key" = DString "email"
    /\ get cfg "title" = DString "email".
Proof.
  apply (action_true_resets_title
           (Request (config_fields users_request) None
              (fun _ => {[ "email" := VData (DBool true) ]}) (DString "id"))
           users_model (Some "edit") users_heap "email").
  - distinct_names.
  - vm_compute. auto.
  - reflexivity.
  - reflexivity.
Defined.

(** X10: a configuration that nowhere holds an object for a field attribute
    (boolean and string notations, or no override) is read only: [getFields]
    returns the store it was given. *)
Theorem notations_without_object_read_only (req : request)
  (model_ : option model_t) (type_ : option string) (h h' : heap)
  (res : fields) :
  (forall k l, In k (map fst (modelAttributes req model_)) ->
               index (default ∅ (config_fields req)) k <> VRef l
               /\ index (action_fields req (action_type type_)) k <> VRef l) ->
  getFields req model_ type_ h = Ok (res, h') ->
  h' = h.
Proof.
  intros Hno Hrun. rewrite getFields_forEach in Hrun.
  apply map_eq. intros l.
  eapply forEach_frame; [|exact Hrun].
  intros k Hk [E|E]; destruct (Hno k l Hk) as [HF HA]; contradiction.
Qed.

Lemma notations_without_object_read_only_witness :
  exists res h',
    getFields
      (Request (Some {[ "email" := VData (DString "User Email");
                        "createdAt" := false_ ]})
         None (fun _ => {[ "createdAt" := VData (DBool true) ]}) (DString "id"))
      users_model None users_heap = Ok (res, h')
    /\ h' = users_heap.
Proof.
  eexists _, _. split; [vm_compute; reflexivity|].
  eapply (notations_without_object_read_only
            (Request (Some {[ "email" := VData (DString "User Email");
                              "createdAt" := false_ ]})
               None (fun _ => {[ "createdAt" := VData (DBool true) ]})
               (DString "id"))
            users_model None users_heap).
  - vm_compute. intros k l [<-|[<-|[<-|[<-|[]]]]]; split; discriminate.
  - vm_compute. reflexivity.
Defined.

(** ** [isId] on the entries of [getFields] *)

Lemma layer_config_key (reset : bool) (v : value) (k : string) (h : heap)
  (st : props * bool) :
  isPlainObject v = false -> get (fst st) "key" = DString k ->
  get (fst (layer_config reset v k h st)) "key" = DString k.
Proof.
  intros Hv Hst. unfold layer_config.
  destruct (is_false v); [exact Hst|].
  destruct (value_truthy v); [|exact Hst]. cbn [fst].
  destruct v as [d|l]; [|discriminate].
  destruct d as [| |[]| |s| | |]; try discriminate; simpl; try exact Hst;
    rewrite get_merge_props, Hst; reflexivity.
Qed.

(** X11: [isId] finds the identifier among the entries of [getFields].  For
    a field attribute that is shown and whose overrides are no objects
    (boolean or string notation, or none), [isId] on its entry, with a string
    for identifier field, answers whether the attribute name is that
    string. *)
Theorem isId_recognises_identifier (req : request) (model_ : option model_t)
  (type_ : option string) (h : heap) (k : string) (mf : data) :
  NoDup (map fst (modelAttributes req model_)) ->
  In (k, mf) (modelAttributes req model_) ->
  skipped (action_type type_) (identifier_field req) k = false ->
  visible (default ∅ (config_fields req))
    (action_fields req (action_type type_)) k = true ->
  isPlainObject (index (default ∅ (config_fields req)) k) = false ->
  isPlainObject (index (action_fields req (action_type type_)) k) = false ->
  exists res h' e,
    getFields req model_ type_ h = Ok (res, h')
    /\ result_get res k = Some e
    /\ forall id : string,
         isId e (DString id) h' = Ok (Some (String.eqb k id), h').
Proof.
  intros Hnd Hin Hsk Hvis HF HA.
  destruct (getFields_emitted req model_ type_ h k mf Hnd Hin Hsk)
    as (res & h' & h1 & Hrun & _ & Hr).
  { intros h1 _. rewrite snd_merged_config, Hvis. reflexivity. }
  eexists res, h', _. split; [exact Hrun|]. split; [exact Hr|].
  intros id. unfold isId, bind, prop_get, ret. simpl.
  rewrite get_finalize_key.
  assert (E : get (fst (merged_config (default ∅ (config_fields req))
                          (action_fields req (action_type type_)) k h1))
                "key" = DString k).
  { unfold merged_config. apply layer_config_key; [exact HA|].
    apply layer_config_key; [exact HF | reflexivity]. }
  rewrite E. destruct (truthy (DString k)); reflexivity.
Qed.

Lemma isId_recognises_identifier_witness :
  exists res h' e,
    getFields users_request users_model (Some "edit") users_heap = Ok (res, h')
    /\ result_get res "id" = Some e
    /\ forall id : string,
         isId e (DString id) h' = Ok (Some (String.eqb "id" id), h').
Proof.
  apply (isId_recognises_identifier users_request users_model (Some "edit")
           users_heap "id" (DObject [("type", DString "integer")])).
  - distinct_names.
  - vm_compute. auto.
  - reflexivity.
  - reflexivity.
  - reflexivity.
  - reflexivity.
Defined.
